(** * ocp_vscode.backend: the measurement backend of the OCP CAD viewer

    A shallow embedding of [src/ocp_vscode/backend.py].  The backend keeps a
    model (a dict from shape id to shape) and the active measurement tool,
    and answers selection events with distance, properties or angle
    responses.  All geometry is computed by an external kernel (build123d)
    on Python floats: the kernel, the float operations and the transport are
    parameters of the development, and every kernel call that can raise
    returns a [Res]. *)

From Stdlib Require Import String Ascii List ZArith Bool Lia.
From stdpp Require Import base option gmap strings.
Import ListNotations.
Local Open Scope string_scope.

(** ** Python exceptions and fallible results *)

Inductive Exception :=
| KeyError (key : string)
| TypeError (msg : string)
| IndexError (msg : string)
| ValueError (msg : string)
| AttributeError (msg : string)
| OtherError (msg : string).

Inductive Res (A : Type) :=
| Ok (a : A)
| Raise (ex : Exception).
Arguments Ok {A} a.
Arguments Raise {A} ex.

Definition res_bind {A B} (c : Res A) (k : A -> Res B) : Res B :=
  match c with
  | Ok a => k a
  | Raise ex => Raise ex
  end.

Declare Scope res_scope.
Delimit Scope res_scope with res.
Notation "x <~ c ;; k" := (res_bind c (fun x => k))
  (at level 100, c at next level, right associativity) : res_scope.

(** ** Values compared by the source: strings and [GeomType] members *)

(** The members of build123d's [GeomType] enum that the backend names. *)
Inductive GeomType := CIRCLE | ELLIPSE | CYLINDER.

Definition GeomType_eqb (g h : GeomType) : bool :=
  match g, h with
  | CIRCLE, CIRCLE | ELLIPSE, ELLIPSE | CYLINDER, CYLINDER => true
  | _, _ => false
  end.

(** A Python object that is either a [str] or a [GeomType] member.  [==]
    between a string and an enum member is [False]. *)
Inductive PyObj :=
| PyStr (s : string)
| PyGeom (g : GeomType).

Definition py_eq (a b : PyObj) : bool :=
  match a, b with
  | PyStr s, PyStr t => String.eqb s t
  | PyGeom g, PyGeom h => GeomType_eqb g h
  | _, _ => false
  end.

(** [x in [a, b, ...]] *)
Definition py_in (x : PyObj) (l : list PyObj) : bool := existsb (py_eq x) l.

(** [str.capitalize()] on ASCII strings: first character upper-cased, the
    rest lower-cased. *)
Definition ascii_upper (c : ascii) : ascii :=
  let n := nat_of_ascii c in
  if (97 <=? n)%nat && (n <=? 122)%nat then ascii_of_nat (n - 32) else c.

Definition ascii_lower (c : ascii) : ascii :=
  let n := nat_of_ascii c in
  if (65 <=? n)%nat && (n <=? 90)%nat then ascii_of_nat (n + 32) else c.

Fixpoint str_lower (s : string) : string :=
  match s with
  | EmptyString => EmptyString
  | String c r => String (ascii_lower c) (str_lower r)
  end.

Definition capitalize (s : string) : string :=
  match s with
  | EmptyString => EmptyString
  | String c r => String (ascii_upper c) (str_lower r)
  end.

(** ** The geometry kernel *)

(** The Python class of a shape, as [isinstance] sees it.  [COther] stands
    for the kernel's remaining shape classes (Wire, Shell, Compound). *)
Inductive ShapeClass := CVertex | CEdge | CFace | CSolid | COther.

Definition ShapeClass_eqb (a b : ShapeClass) : bool :=
  match a, b with
  | CVertex, CVertex | CEdge, CEdge | CFace, CFace
  | CSolid, CSolid | COther, COther => true
  | _, _ => false
  end.

(** What the backend imports from build123d and from the Python runtime.
    Attribute reads and calls that can raise return a [Res]. *)
Class Kernel := {
  Shape : Type;
  Vector : Type;
  Plane : Type;
  Float : Type;
  (* shapes *)
  shape_class : Shape -> ShapeClass;
  geom_type : Shape -> string;                  (* shape.geom_type() *)
  shape_center : Shape -> Res Vector;           (* shape.center() *)
  arc_center : Shape -> Res Vector;             (* shape.arc_center *)
  shape_to_tuple : Shape -> Res (list Float);   (* shape.to_tuple() *)
  shape_radius : Shape -> Res Float;            (* shape.radius *)
  shape_length : Shape -> Res Float;            (* edge.length *)
  (* face.length and face.width: [None] when the kernel has no length or
     width for the face, as for a face that is not planar *)
  face_length : Shape -> Res (option Float);
  face_width : Shape -> Res (option Float);
  shape_area : Shape -> Res Float;              (* shape.area *)
  shape_volume : Shape -> Res Float;            (* shape.volume *)
  edges : Shape -> list Shape;                  (* shape.edges() *)
  filter_by : GeomType -> list Shape -> list Shape;  (* ShapeList.filter_by *)
  position_at : Shape -> Z -> Res Vector;       (* shape @ u *)
  tangent_at : Shape -> Z -> Res Vector;        (* shape % u *)
  normal : Shape -> Res Vector;                 (* shape.normal() *)
  (* planes and vectors *)
  Plane_of_face : Shape -> Res Plane;           (* Plane(face) *)
  Plane_of_origin : Vector -> Vector -> Res Plane;  (* Plane(origin, z_dir=v) *)
  z_dir : Plane -> Vector;                      (* plane.z_dir *)
  get_angle : Vector -> Vector -> Res Float;    (* v.get_angle(w) *)
  vsub : Vector -> Vector -> Vector;            (* v - w *)
  vdiv : Vector -> Z -> Vector;                 (* v / n *)
  vlength : Vector -> Float;                    (* v.length *)
  to_tuple : Vector -> list Float;              (* v.to_tuple() *)
  (* floats *)
  float_of_Z : Z -> Float;                      (* an int literal used as a float *)
  fsub : Float -> Float -> Float;               (* x - y *)
  py_abs : Float -> Float;                      (* abs(x) *)
  py_round : Float -> Z -> Float                (* round(x, decimals) *)
}.

(** The host side: the decoder of a transferred model and the transport of
    [ocp_vscode.comms.send_response].  [transport d port] is the exception
    the send raises, if any. *)
Class Host (Model Payload : Type) := {
  pickle_loads_b64decode : string -> Res Model;
  transport : Payload -> Z -> option Exception
}.

Definition isinstance `{Kernel} (shape : Shape) (c : ShapeClass) : bool :=
  ShapeClass_eqb (shape_class shape) c.

(** [ShapeList.first] is [self[0]] and [ShapeList.last] is [self[-1]]. *)
Definition ShapeList_first {A} (l : list A) : Res A :=
  match l with
  | x :: _ => Ok x
  | [] => Raise (IndexError "list index out of range")
  end.

Definition ShapeList_last {A} (l : list A) : Res A :=
  match rev l with
  | x :: _ => Ok x
  | [] => Raise (IndexError "list index out of range")
  end.

Module Tool.
Definition Distance : string := "DistanceMeasurement".
Definition Properties : string := "PropertiesMeasurement".
Definition Angle : string := "AngleMeasurement".
End Tool.

Section Backend.
Context {K : Kernel}.
Local Open Scope res_scope.

(** ** Center resolution *)

Definition get_center (shape : Shape) (for_distance : bool) : Res Vector :=
  if isinstance shape CVertex then shape_center shape
  else if isinstance shape CEdge then
    if py_in (PyStr (geom_type shape))
         [PyGeom CIRCLE; PyGeom ELLIPSE; PyStr "CIRCLE"; PyStr "ELLIPSE"]
    then (if for_distance then arc_center shape else shape_center shape)
    else shape_center shape
  else if isinstance shape CFace then
    if py_in (PyStr (geom_type shape)) [PyGeom CYLINDER; PyStr "CYLINDER"]
    then
      if negb for_distance then shape_center shape
      else
        let extremity_edges := filter_by CIRCLE (edges shape) in
        if (length extremity_edges =? 2)%nat then
          e1 <~ ShapeList_first extremity_edges ;;
          a <~ arc_center e1 ;;
          e1' <~ ShapeList_first extremity_edges ;;
          a' <~ arc_center e1' ;;
          e2 <~ ShapeList_last extremity_edges ;;
          b <~ arc_center e2 ;;
          Ok (vsub a (vdiv (vsub a' b) 2))
        else
          e1 <~ ShapeList_first extremity_edges ;;
          arc_center e1
    else shape_center shape
  else shape_center shape.

(** ** Response records

    The dataclasses of the source.  [None] is the Python [None] a field
    starts with; the constant fields [type], [subtype] and [tool_type] are
    given by [tool_type_of] below. *)

Record DistanceResponse := {
  dist_point1 : option (list Float);
  dist_point2 : option (list Float);
  dist_distance : option Float
}.

Record PropertiesResponse := {
  prop_center : option (list Float);
  prop_vertex_coords : option (list Float);
  prop_length : option Float;
  prop_width : option Float;
  prop_area : option Float;
  prop_volume : option Float;
  prop_radius : option Float;
  prop_geom_type : option string
}.

Record AngleResponse := {
  ang_angle : option Float;
  ang_point1 : option (list Float);
  ang_point2 : option (list Float)
}.

(** [PropertiesResponse()]: every field at its default. *)
Definition PropertiesResponse_new : PropertiesResponse :=
  {| prop_center := None; prop_vertex_coords := None; prop_length := None;
     prop_width := None; prop_area := None; prop_volume := None;
     prop_radius := None; prop_geom_type := None |}.

(** Attribute assignments [response.field = v]. *)
Definition set_center v (r : PropertiesResponse) : PropertiesResponse :=
  {| prop_center := v; prop_vertex_coords := prop_vertex_coords r;
     prop_length := prop_length r; prop_width := prop_width r;
     prop_area := prop_area r; prop_volume := prop_volume r;
     prop_radius := prop_radius r; prop_geom_type := prop_geom_type r |}.
Definition set_vertex_coords v (r : PropertiesResponse) : PropertiesResponse :=
  {| prop_center := prop_center r; prop_vertex_coords := v;
     prop_length := prop_length r; prop_width := prop_width r;
     prop_area := prop_area r; prop_volume := prop_volume r;
     prop_radius := prop_radius r; prop_geom_type := prop_geom_type r |}.
Definition set_length v (r : PropertiesResponse) : PropertiesResponse :=
  {| prop_center := prop_center r; prop_vertex_coords := prop_vertex_coords r;
     prop_length := v; prop_width := prop_width r;
     prop_area := prop_area r; prop_volume := prop_volume r;
     prop_radius := prop_radius r; prop_geom_type := prop_geom_type r |}.
Definition set_width v (r : PropertiesResponse) : PropertiesResponse :=
  {| prop_center := prop_center r; prop_vertex_coords := prop_vertex_coords r;
     prop_length := prop_length r; prop_width := v;
     prop_area := prop_area r; prop_volume := prop_volume r;
     prop_radius := prop_radius r; prop_geom_type := prop_geom_type r |}.
Definition set_area v (r : PropertiesResponse) : PropertiesResponse :=
  {| prop_center := prop_center r; prop_vertex_coords := prop_vertex_coords r;
     prop_length := prop_length r; prop_width := prop_width r;
     prop_area := v; prop_volume := prop_volume r;
     prop_radius := prop_radius r; prop_geom_type := prop_geom_type r |}.
Definition set_volume v (r : PropertiesResponse) : PropertiesResponse :=
  {| prop_center := prop_center r; prop_vertex_coords := prop_vertex_coords r;
     prop_length := prop_length r; prop_width := prop_width r;
     prop_area := prop_area r; prop_volume := v;
     prop_radius := prop_radius r; prop_geom_type := prop_geom_type r |}.
Definition set_radius v (r : PropertiesResponse) : PropertiesResponse :=
  {| prop_center := prop_center r; prop_vertex_coords := prop_vertex_coords r;
     prop_length := prop_length r; prop_width := prop_width r;
     prop_area := prop_area r; prop_volume := prop_volume r;
     prop_radius := v; prop_geom_type := prop_geom_type r |}.
Definition set_geom_type v (r : PropertiesResponse) : PropertiesResponse :=
  {| prop_center := prop_center r; prop_vertex_coords := prop_vertex_coords r;
     prop_length := prop_length r; prop_width := prop_width r;
     prop_area := prop_area r; prop_volume := prop_volume r;
     prop_radius := prop_radius r; prop_geom_type := v |}.

(** [asdict(response)]: the payload handed to the transport, tagged by the
    dataclass it comes from. *)
Inductive Dict :=
| DistanceDict (r : DistanceResponse)
| PropertiesDict (r : PropertiesResponse)
| AngleDict (r : AngleResponse).

Definition tool_type_of (d : Dict) : string :=
  match d with
  | DistanceDict _ => Tool.Distance
  | PropertiesDict _ => Tool.Properties
  | AngleDict _ => Tool.Angle
  end.

(** ** set_precision

    The source walks [fields(instance)]: a field declared [float] is rounded
    unless it is [None]; any other field whose value is a tuple has each of
    its (float) elements rounded; the [str] fields are left alone. *)

Definition round_float_field (decimals : Z) (v : option Float) : option Float :=
  match v with
  | Some x => Some (py_round x decimals)
  | None => None
  end.

Definition round_tuple_field (decimals : Z) (v : option (list Float))
  : option (list Float) :=
  match v with
  | Some old_tuple => Some (map (fun elem => py_round elem decimals) old_tuple)
  | None => None
  end.

Definition set_precision_distance (decimals : Z) (r : DistanceResponse)
  : DistanceResponse :=
  {| dist_point1 := round_tuple_field decimals (dist_point1 r);
     dist_point2 := round_tuple_field decimals (dist_point2 r);
     dist_distance := round_float_field decimals (dist_distance r) |}.

Definition set_precision_properties (decimals : Z) (r : PropertiesResponse)
  : PropertiesResponse :=
  {| prop_center := round_tuple_field decimals (prop_center r);
     prop_vertex_coords := round_tuple_field decimals (prop_vertex_coords r);
     prop_length := round_float_field decimals (prop_length r);
     prop_width := round_float_field decimals (prop_width r);
     prop_area := round_float_field decimals (prop_area r);
     prop_volume := round_float_field decimals (prop_volume r);
     prop_radius := round_float_field decimals (prop_radius r);
     prop_geom_type := prop_geom_type r |}.

Definition set_precision_angle (decimals : Z) (r : AngleResponse)
  : AngleResponse :=
  {| ang_angle := round_float_field decimals (ang_angle r);
     ang_point1 := round_tuple_field decimals (ang_point1 r);
     ang_point2 := round_tuple_field decimals (ang_point2 r) |}.

(** ** Backend state, effects and the monad of the methods *)

Record ViewerBackend := {
  port : Z;
  model : option (gmap string Shape);   (* [None] until a model is loaded *)
  activated_tool : option string;       (* [None] when no tool is active *)
  filter_type : string
}.

(** [ViewerBackend(port)] *)
Definition ViewerBackend_init (p : Z) : ViewerBackend :=
  {| port := p; model := None; activated_tool := None; filter_type := "none" |}.

(** What a method does to the outside: a call of [send_response], a
    [print] of a fixed line, the [print] of the response just sent, or
    [traceback.print_exc()]. *)
Inductive Effect :=
| SendResponse (d : Dict) (p : Z)
| Stdout (line : string)
| StdoutDataSent (d : Dict)
| Traceback (ex : Exception).

Context {H : Host (gmap string Shape) Dict}.

(** A method takes the backend and gives its outcome (a value or a raised
    exception), the backend as it leaves it, and the effects in order.  A
    mutation made before an exception is raised stays. *)
Definition M (A : Type) : Type := ViewerBackend -> Res A * ViewerBackend * list Effect.

Definition ret {A} (a : A) : M A := fun self => (Ok a, self, []).

Definition bind {A B} (c : M A) (k : A -> M B) : M B := fun self =>
  match c self with
  | (Ok a, self', out) =>
      match k a self' with
      | (r, self'', out') => (r, self'', (out ++ out')%list)
      end
  | (Raise ex, self', out) => (Raise ex, self', out)
  end.

Notation "x <- c ;; k" := (bind c (fun x => k))
  (at level 100, c at next level, right associativity).
Notation "c ;;; k" := (bind c (fun _ => k))
  (at level 100, k at level 200, right associativity).

Definition lift {A} (c : Res A) : M A := fun self => (c, self, []).
Definition get_self : M ViewerBackend := fun self => (Ok self, self, []).
Definition emit (e : Effect) : M unit := fun self => (Ok tt, self, [e]).

(** [self.model = m] *)
Definition set_model (m : gmap string Shape) : M unit := fun self =>
  (Ok tt,
   {| port := port self; model := Some m;
      activated_tool := activated_tool self; filter_type := filter_type self |},
   []).

(** [self.activated_tool = t] *)
Definition set_activated_tool (t : option string) : M unit := fun self =>
  (Ok tt,
   {| port := port self; model := model self;
      activated_tool := t; filter_type := filter_type self |},
   []).

(** [self.model[shape_id]]: a [TypeError] while the model is [None], a
    [KeyError] for an id the dict does not have. *)
Definition model_getitem (shape_id : string) : M Shape := fun self =>
  match model self with
  | None => (Raise (TypeError "'NoneType' object is not subscriptable"), self, [])
  | Some m =>
      match m !! shape_id with
      | Some shape => (Ok shape, self, [])
      | None => (Raise (KeyError shape_id), self, [])
      end
  end.

(** [send_response(d, port)] of [ocp_vscode.comms]: the call is recorded,
    then the transport may raise. *)
Definition send_response (d : Dict) (p : Z) : M unit := fun self =>
  match transport d p with
  | None => (Ok tt, self, [SendResponse d p])
  | Some ex => (Raise ex, self, [SendResponse d p])
  end.

(** ** The error boundary *)

Definition error_handler {X A} (func : X -> M A) : X -> M unit := fun args self =>
  match func args self with
  | (Ok _, self', out) => (Ok tt, self', out)
  | (Raise ex, self', out) =>
      (Ok tt, self',
       (out ++ [Stdout "The following error happened, backend still running";
                Traceback ex])%list)
  end.

(** ** load_model *)

Definition load_model (raw_model : string) : M unit :=
  m <- lift (pickle_loads_b64decode raw_model) ;;
  set_model m.

(** ** handle_distance *)

Definition handle_distance (id1 id2 : string) : M unit :=
  shape1 <- model_getitem id1 ;;
  shape2 <- model_getitem id2 ;;
  p1 <- lift (get_center shape1 true) ;;
  p2 <- lift (get_center shape2 true) ;;
  let dist := vlength (vsub p2 p1) in
  let response :=
    {| dist_point1 := Some (to_tuple p1); dist_point2 := Some (to_tuple p2);
       dist_distance := Some dist |} in
  let response := set_precision_distance 2 response in
  self <- get_self ;;
  send_response (DistanceDict response) (port self) ;;;
  emit (StdoutDataSent (DistanceDict response)).

(** ** handle_properties *)

Definition handle_properties (shape_id : string) : M unit :=
  shape <- model_getitem shape_id ;;
  let response := PropertiesResponse_new in
  response <- lift (
    if isinstance shape CVertex then
      t <~ shape_to_tuple shape ;;
      Ok (set_vertex_coords (Some t) response)
    else if isinstance shape CEdge then
      r <~ (if py_in (PyStr (geom_type shape)) [PyStr "CIRCLE"]
            then (x <~ shape_radius shape ;; Ok (Some x))
            else Ok None) ;;
      let response := set_radius r response in
      l <~ shape_length shape ;;
      Ok (set_length (Some l) response)
    else if isinstance shape CFace then
      response <~ (if py_eq (PyStr (geom_type shape)) (PyStr "CYLINDER") then
                     circle <~ ShapeList_first (filter_by CIRCLE (edges shape)) ;;
                     x <~ shape_radius circle ;;
                     Ok (set_radius (Some x) response)
                   else Ok response) ;;
      l <~ face_length shape ;;
      let response := set_length l response in
      w <~ face_width shape ;;
      let response := set_width w response in
      a <~ shape_area shape ;;
      Ok (set_area (Some a) response)
    else if isinstance shape CSolid then
      v <~ shape_volume shape ;;
      Ok (set_volume (Some v) response)
    else Ok response) ;;
  let geom_type := capitalize (geom_type shape) in
  let response :=
    set_geom_type (if negb (String.eqb geom_type "Vertex") then Some geom_type else None)
                  response in
  c <- lift (get_center shape false) ;;
  let response := set_center (Some (to_tuple c)) response in
  let response := set_precision_properties 2 response in
  self <- get_self ;;
  send_response (PropertiesDict response) (port self) ;;;
  emit (StdoutDataSent (PropertiesDict response)).

(** ** handle_angle *)

(** The value bound to [first] and [second]: a [Plane] or a [Vector]. *)
Inductive Reference :=
| RefPlane (p : Plane)
| RefVector (v : Vector).

Inductive PyType := TPlane | TVector.

Definition type_of (r : Reference) : PyType :=
  match r with
  | RefPlane _ => TPlane
  | RefVector _ => TVector
  end.

Definition PyType_eqb (a b : PyType) : bool :=
  match a, b with
  | TPlane, TPlane | TVector, TVector => true
  | _, _ => false
  end.

(** [r.z_dir]: only a [Plane] has the attribute. *)
Definition attr_z_dir (r : Reference) : Res Reference :=
  match r with
  | RefPlane p => Ok (RefVector (z_dir p))
  | RefVector _ => Raise (AttributeError "'Vector' object has no attribute 'z_dir'")
  end.

(** [recv.get_angle(arg)]: a method of [Vector], on a [Vector]. *)
Definition method_get_angle (recv arg : Reference) : Res Float :=
  match recv with
  | RefVector v =>
      match arg with
      | RefVector w => get_angle v w
      | RefPlane _ => Raise (TypeError "get_angle expects a Vector")
      end
  | RefPlane _ => Raise (AttributeError "'Plane' object has no attribute 'get_angle'")
  end.

(** The conditional expression the source writes once for [shape1] and once
    for [shape2]. *)
Definition reference (shape : Shape) : Res Reference :=
  if isinstance shape CFace then
    p <~ Plane_of_face shape ;; Ok (RefPlane p)
  else if isinstance shape CEdge
          && py_in (PyStr (geom_type shape)) [PyStr "CIRCLE"; PyStr "ELLIPSE"] then
    origin <~ position_at shape 0 ;;
    n <~ normal shape ;;
    p <~ Plane_of_origin origin n ;;
    Ok (RefPlane p)
  else
    v <~ tangent_at shape 0 ;; Ok (RefVector v).

(** The [if type(first) == type(second) == Plane: ... elif ... else ...]
    block followed by [angle = abs(angle)]. *)
Definition angle_between (first second : Reference) : Res Float :=
  angle <~ (
    if PyType_eqb (type_of first) (type_of second)
       && PyType_eqb (type_of second) TPlane then
      a <~ attr_z_dir first ;;
      b <~ attr_z_dir second ;;
      method_get_angle a b
    else if PyType_eqb (type_of first) (type_of second)
            && PyType_eqb (type_of second) TVector then
      method_get_angle first second
    else
      let vector := if PyType_eqb (type_of first) TVector then first else second in
      let plane := if PyType_eqb (type_of first) TPlane then first else second in
      z <~ attr_z_dir plane ;;
      a <~ method_get_angle z vector ;;
      Ok (fsub (float_of_Z 90) a)) ;;
  Ok (py_abs angle).

Definition handle_angle (id1 id2 : string) : M unit :=
  shape1 <- model_getitem id1 ;;
  shape2 <- model_getitem id2 ;;
  first <- lift (reference shape1) ;;
  second <- lift (reference shape2) ;;
  angle <- lift (angle_between first second) ;;
  point1 <- lift (get_center shape1 true) ;;
  point2 <- lift (get_center shape2 true) ;;
  let response :=
    {| ang_angle := Some angle;
       ang_point1 := Some (to_tuple point1);
       ang_point2 := Some (to_tuple point2) |} in
  let response := set_precision_angle 2 response in
  self <- get_self ;;
  send_response (AngleDict response) (port self) ;;;
  emit (StdoutDataSent (AngleDict response)).

(** ** Events and dispatch *)

(** The [changes] dict of an updates message: the two keys the backend
    reads, each present ([Some]) or not. *)
Record Changes := {
  activeTool : option string;
  selectedShapeIDs : option (list string)
}.

(** A message with its [MessageType]; the backend acts on [data] and
    [updates] and ignores every other type. *)
Inductive Event :=
| DataEvent (message : string)
| UpdatesEvent (changes : Changes)
| OtherEvent.

(** [l[i]] *)
Definition getitem {A} (l : list A) (i : nat) : Res A :=
  match nth_error l i with
  | Some x => Ok x
  | None => Raise (IndexError "list index out of range")
  end.

(** [self.activated_tool == name] *)
Definition tool_is (self : ViewerBackend) (name : string) : bool :=
  match activated_tool self with
  | Some t => String.eqb t name
  | None => false
  end.

Definition handle_activated_tool (changes : Changes) : M unit :=
  match selectedShapeIDs changes with
  | None => ret tt
  | Some selectedObjs =>
      self <- get_self ;;
      if tool_is self Tool.Distance && (length selectedObjs =? 2)%nat then
        shape_id1 <- lift (getitem selectedObjs 0) ;;
        shape_id2 <- lift (getitem selectedObjs 1) ;;
        handle_distance shape_id1 shape_id2
      else if tool_is self Tool.Properties && (length selectedObjs =? 1)%nat then
        shape_id <- lift (getitem selectedObjs 0) ;;
        handle_properties shape_id
      else if tool_is self Tool.Angle && (length selectedObjs =? 2)%nat then
        shape_id1 <- lift (getitem selectedObjs 0) ;;
        shape_id2 <- lift (getitem selectedObjs 1) ;;
        handle_angle shape_id1 shape_id2
      else ret tt
  end.

(** The function under the [@error_handler] decorator. *)
Definition handle_event_body (event : Event) : M unit :=
  match event with
  | DataEvent message => load_model message
  | UpdatesEvent changes =>
      match activeTool changes with
      | Some active_tool =>
          if negb (String.eqb active_tool "None")
          then set_activated_tool (Some active_tool)
          else set_activated_tool None
      | None => ret tt
      end ;;;
      self <- get_self ;;
      match activated_tool self with
      | Some _ => handle_activated_tool changes
      | None => ret tt
      end
  | OtherEvent => ret tt
  end.

Definition handle_event : Event -> M unit := error_handler handle_event_body.

End Backend.

(** ** The dispatch table of the specification

    Spec 4.3: Distance has arity 2, Properties arity 1, Angle arity 2; any
    other tool name has no entry. *)

Definition required_arity (tool : string) : option nat :=
  if String.eqb tool Tool.Distance then Some 2%nat
  else if String.eqb tool Tool.Properties then Some 1%nat
  else if String.eqb tool Tool.Angle then Some 2%nat
  else None.

(** A tool is active and the selection has exactly its arity. *)
Definition arity_matches (tool : option string) (ids : list string) : bool :=
  match tool with
  | Some t =>
      match required_arity t with
      | Some n => (length ids =? n)%nat
      | None => false
      end
  | None => false
  end.

(** A call of one measurement handler with its identifiers. *)
Inductive Invocation :=
| InvokeDistance (id1 id2 : string)
| InvokeProperties (shape_id : string)
| InvokeAngle (id1 id2 : string).

Definition invoke `{Kernel} `{!Host (gmap string Shape) Dict} (i : Invocation) : M unit :=
  match i with
  | InvokeDistance id1 id2 => handle_distance id1 id2
  | InvokeProperties shape_id => handle_properties shape_id
  | InvokeAngle id1 id2 => handle_angle id1 id2
  end.

(** The handler the table selects for a tool and a selection, with the
    identifiers in their given order. *)
Definition selected_handler (tool : option string) (ids : list string)
  : option Invocation :=
  match tool, ids with
  | Some t, [a] =>
      if String.eqb t Tool.Properties then Some (InvokeProperties a) else None
  | Some t, [a; b] =>
      if String.eqb t Tool.Distance then Some (InvokeDistance a b)
      else if String.eqb t Tool.Angle then Some (InvokeAngle a b)
      else None
  | _, _ => None
  end.

(** The tool state an [activeTool] value stands for. *)
Definition tool_of_literal (active_tool : string) : option string :=
  if String.eqb active_tool "None" then None else Some active_tool.

Definition with_activated_tool `{Kernel} (t : option string) (self : ViewerBackend)
  : ViewerBackend :=
  {| port := port self; model := model self;
     activated_tool := t; filter_type := filter_type self |}.

Definition with_model `{Kernel} (m : gmap string Shape) (self : ViewerBackend)
  : ViewerBackend :=
  {| port := port self; model := Some m;
     activated_tool := activated_tool self; filter_type := filter_type self |}.

(** The tail every handler ends with: send the payload, then print it. *)
Definition respond `{Kernel} `{!Host (gmap string Shape) Dict} (d : Dict) : M unit :=
  fun self =>
    match transport d (port self) with
    | None => (Ok tt, self, [SendResponse d (port self); StdoutDataSent d])
    | Some ex => (Raise ex, self, [SendResponse d (port self)])
    end.

(** What a run handed to the transport, if anything. *)
Fixpoint sent `{Kernel} (out : list Effect) : option Dict :=
  match out with
  | SendResponse d _ :: _ => Some d
  | _ :: rest => sent rest
  | [] => None
  end.

(** ** Vocabulary of the center rules (spec 4.6) *)

(** The geometry kind is circle or ellipse. *)
Definition is_circular `{Kernel} (shape : Shape) : bool :=
  String.eqb (geom_type shape) "CIRCLE" || String.eqb (geom_type shape) "ELLIPSE".

(** The geometry kind is cylinder. *)
Definition is_cylinder `{Kernel} (shape : Shape) : bool :=
  String.eqb (geom_type shape) "CYLINDER".

(** The circular boundary edges of a face. *)
Definition circular_boundary_edges `{Kernel} (shape : Shape) : list Shape :=
  filter_by CIRCLE (edges shape).

(** The point [a - (a - b) / 2], halfway from [a] to [b]. *)
Definition halfway `{Kernel} (a b : Vector) : Vector :=
  vsub a (vdiv (vsub a b) 2).

(** The shape/mode combinations that rules 1 to 3 of the spec name; every
    other combination is the fallback. *)
Definition special_rule `{Kernel} (shape : Shape) (for_distance : bool) : bool :=
  match shape_class shape with
  | CVertex => true
  | CEdge => is_circular shape
  | CFace => is_cylinder shape && for_distance
  | CSolid | COther => false
  end.

(** ** The measurements as the specification words them

    Each handler is compared with a pure function from the selected shapes
    to the response record, followed by [respond]. *)

(** [self.model[shape_id]] as a value. *)
Definition lookup_shape `{Kernel} (self : ViewerBackend) (shape_id : string) : Res Shape :=
  match model self with
  | None => Raise (TypeError "'NoneType' object is not subscriptable")
  | Some m =>
      match m !! shape_id with
      | Some shape => Ok shape
      | None => Raise (KeyError shape_id)
      end
  end.

(** Run a pure computation of the payload, then respond with it. *)
Definition finish `{Kernel} `{!Host (gmap string Shape) Dict} (c : Res Dict) : M unit :=
  fun self =>
    match c with
    | Ok d => respond d self
    | Raise ex => (Raise ex, self, [])
    end.

(** Rounding to the 2 decimals of the responses. *)
Definition round2 `{Kernel} (x : Float) : Float := py_round x 2.
Definition rounded `{Kernel} (t : list Float) : list Float := map round2 t.

(** Spec 4.7: the two distance-mode centers and the length of their
    difference. *)
Definition distance_spec `{Kernel} (shape1 shape2 : Shape) : Res DistanceResponse :=
  (p1 <~ get_center shape1 true ;;
   p2 <~ get_center shape2 true ;;
   Ok {| dist_point1 := Some (rounded (to_tuple p1));
         dist_point2 := Some (rounded (to_tuple p2));
         dist_distance := Some (round2 (vlength (vsub p2 p1))) |})%res.

(** Spec 4.4: the fields each variant populates, the capitalized
    geometry-kind label (absent for a Vertex) and the non-distance-mode
    center.  The length and the width of a Face are the kernel's, absent
    when the kernel has none. *)
Definition properties_spec `{Kernel} (shape : Shape) : Res PropertiesResponse :=
  let label := Some (capitalize (geom_type shape)) in
  match shape_class shape with
  | CVertex =>
      (coords <~ shape_to_tuple shape ;;
       c <~ get_center shape false ;;
       Ok {| prop_center := Some (rounded (to_tuple c));
             prop_vertex_coords := Some (rounded coords);
             prop_length := None; prop_width := None; prop_area := None;
             prop_volume := None; prop_radius := None;
             prop_geom_type := None |})%res
  | CEdge =>
      (r <~ (if String.eqb (geom_type shape) "CIRCLE"
             then (x <~ shape_radius shape ;; Ok (Some (round2 x)))
             else Ok None) ;;
       l <~ shape_length shape ;;
       c <~ get_center shape false ;;
       Ok {| prop_center := Some (rounded (to_tuple c));
             prop_vertex_coords := None;
             prop_length := Some (round2 l); prop_width := None;
             prop_area := None; prop_volume := None; prop_radius := r;
             prop_geom_type := label |})%res
  | CFace =>
      (r <~ (if is_cylinder shape
             then (circle <~ ShapeList_first (circular_boundary_edges shape) ;;
                   x <~ shape_radius circle ;; Ok (Some (round2 x)))
             else Ok None) ;;
       l <~ face_length shape ;;
       w <~ face_width shape ;;
       a <~ shape_area shape ;;
       c <~ get_center shape false ;;
       Ok {| prop_center := Some (rounded (to_tuple c));
             prop_vertex_coords := None;
             prop_length := option_map round2 l;
             prop_width := option_map round2 w;
             prop_area := Some (round2 a); prop_volume := None;
             prop_radius := r; prop_geom_type := label |})%res
  | CSolid =>
      (v <~ shape_volume shape ;;
       c <~ get_center shape false ;;
       Ok {| prop_center := Some (rounded (to_tuple c));
             prop_vertex_coords := None;
             prop_length := None; prop_width := None; prop_area := None;
             prop_volume := Some (round2 v); prop_radius := None;
             prop_geom_type := label |})%res
  | COther =>
      (c <~ get_center shape false ;;
       Ok {| prop_center := Some (rounded (to_tuple c));
             prop_vertex_coords := None;
             prop_length := None; prop_width := None; prop_area := None;
             prop_volume := None; prop_radius := None;
             prop_geom_type := label |})%res
  end.

(** Spec 4.5: the angle by the pairing of the two reference kinds, before
    the absolute value. *)
Definition angle_rule `{Kernel} (first second : Reference) : Res Float :=
  match first, second with
  | RefPlane p, RefPlane q => get_angle (z_dir p) (z_dir q)
  | RefVector v, RefVector w => get_angle v w
  | RefPlane p, RefVector v
  | RefVector v, RefPlane p =>
      (a <~ get_angle (z_dir p) v ;; Ok (fsub (float_of_Z 90) a))%res
  end.

Definition angle_spec `{Kernel} (shape1 shape2 : Shape) : Res AngleResponse :=
  (first <~ reference shape1 ;;
   second <~ reference shape2 ;;
   a <~ angle_rule first second ;;
   p1 <~ get_center shape1 true ;;
   p2 <~ get_center shape2 true ;;
   Ok {| ang_angle := Some (round2 (py_abs a));
         ang_point1 := Some (rounded (to_tuple p1));
         ang_point2 := Some (rounded (to_tuple p2)) |})%res.

(** The label the source stores in [geom_type]: absent when the
    capitalized label reads "Vertex". *)
Definition stored_label `{Kernel} (shape : Shape) : option string :=
  if String.eqb (capitalize (geom_type shape)) "Vertex" then None
  else Some (capitalize (geom_type shape)).

(** The backend after the [activeTool] key of an event, if it has one, is
    applied. *)
Definition after_tool_update `{Kernel} (event : Event) (self : ViewerBackend)
  : ViewerBackend :=
  match event with
  | UpdatesEvent changes =>
      match activeTool changes with
      | Some t => with_activated_tool (tool_of_literal t) self
      | None => self
      end
  | DataEvent _ | OtherEvent => self
  end.

(** A selection-change event: an updates message with only the
    [selectedShapeIDs] key. *)
Definition selection_changed (ids : list string) : Event :=
  UpdatesEvent {| activeTool := None; selectedShapeIDs := Some ids |}.

(** The distance a run of the Distance handler hands to the transport. *)
Definition distance_of_run `{Kernel} (out : list Effect) : option Float :=
  match sent out with
  | Some (DistanceDict r) => dist_distance r
  | _ => None
  end.

(** The record a run of the Angle handler hands to the transport. *)
Definition angle_of_run `{Kernel} (out : list Effect) : option AngleResponse :=
  match sent out with
  | Some (AngleDict r) => Some r
  | _ => None
  end.

(** The outcome of a run and the backend it leaves. *)
Definition outcome `{Kernel} {A} (r : Res A * ViewerBackend * list Effect) : Res A :=
  fst (fst r).
Definition final `{Kernel} {A} (r : Res A * ViewerBackend * list Effect) : ViewerBackend :=
  snd (fst r).
Definition effects `{Kernel} {A} (r : Res A * ViewerBackend * list Effect) : list Effect :=
  snd r.

(** ** Runs of several events, and what a run sends *)

(** Successive calls of the decorated entry point on one backend. *)
Fixpoint handle_events `{Kernel} `{!Host (gmap string Shape) Dict}
         (events : list Event) : M unit :=
  match events with
  | [] => ret tt
  | event :: rest => bind (handle_event event) (fun _ => handle_events rest)
  end.

(** The calls of [send_response] in a run, in order, with their port. *)
Fixpoint sends `{Kernel} (out : list Effect) : list (Dict * Z) :=
  match out with
  | SendResponse d p :: rest => (d, p) :: sends rest
  | _ :: rest => sends rest
  | [] => []
  end.

(** The payloads whose "Data sent" line a run printed. *)
Fixpoint printed `{Kernel} (out : list Effect) : list Dict :=
  match out with
  | StdoutDataSent d :: rest => d :: printed rest
  | _ :: rest => printed rest
  | [] => []
  end.

(** The payload an invocation computes before it responds. *)
Definition payload `{Kernel} (i : Invocation) (self : ViewerBackend) : Res Dict :=
  match i with
  | InvokeDistance id1 id2 =>
      (shape1 <~ lookup_shape self id1 ;;
       shape2 <~ lookup_shape self id2 ;;
       r <~ distance_spec shape1 shape2 ;;
       Ok (DistanceDict r))%res
  | InvokeProperties shape_id =>
      (shape <~ lookup_shape self shape_id ;;
       r <~ properties_spec shape ;;
       Ok (PropertiesDict (set_geom_type (stored_label shape) r)))%res
  | InvokeAngle id1 id2 =>
      (shape1 <~ lookup_shape self id1 ;;
       shape2 <~ lookup_shape self id2 ;;
       r <~ angle_spec shape1 shape2 ;;
       Ok (AngleDict r))%res
  end.

(** The handler an event reaches, if any: the one selected for the tool
    that is active once the event's own [activeTool] is applied. *)
Definition reached `{Kernel} (event : Event) (self : ViewerBackend)
  : option Invocation :=
  match event with
  | UpdatesEvent changes =>
      match selectedShapeIDs changes with
      | Some ids =>
          selected_handler (activated_tool (after_tool_update event self)) ids
      | None => None
      end
  | DataEvent _ | OtherEvent => None
  end.

(** [set_precision] on the payload of any of the three dataclasses. *)
Definition set_precision `{Kernel} (decimals : Z) (d : Dict) : Dict :=
  match d with
  | DistanceDict r => DistanceDict (set_precision_distance decimals r)
  | PropertiesDict r => PropertiesDict (set_precision_properties decimals r)
  | AngleDict r => AngleDict (set_precision_angle decimals r)
  end.

Definition float_of_field `{Kernel} (v : option Float) : list Float :=
  match v with
  | Some x => [x]
  | None => []
  end.

Definition floats_of_tuple `{Kernel} (v : option (list Float)) : list Float :=
  match v with
  | Some t => t
  | None => []
  end.

(** Every float a payload carries: its float fields and the elements of its
    tuple fields. *)
Definition floats_of `{Kernel} (d : Dict) : list Float :=
  match d with
  | DistanceDict r =>
      floats_of_tuple (dist_point1 r) ++ floats_of_tuple (dist_point2 r)
      ++ float_of_field (dist_distance r)
  | PropertiesDict r =>
      floats_of_tuple (prop_center r) ++ floats_of_tuple (prop_vertex_coords r)
      ++ float_of_field (prop_length r) ++ float_of_field (prop_width r)
      ++ float_of_field (prop_area r) ++ float_of_field (prop_volume r)
      ++ float_of_field (prop_radius r)
  | AngleDict r =>
      float_of_field (ang_angle r) ++ floats_of_tuple (ang_point1 r)
      ++ floats_of_tuple (ang_point2 r)
  end%list.

(** The tool left by a run of events: the last [activeTool] seen decides. *)
Definition tool_after (events : list Event) (tool : option string) : option string :=
  fold_left
    (fun t event =>
       match event with
       | UpdatesEvent changes =>
           match activeTool changes with
           | Some literal => tool_of_literal literal
           | None => t
           end
       | DataEvent _ | OtherEvent => t
       end)
    events tool.

(** The model left by a run of events: the last payload that decoded. *)
Definition model_after `{Kernel} `{!Host (gmap string Shape) Dict}
           (events : list Event) (m : option (gmap string Shape))
  : option (gmap string Shape) :=
  fold_left
    (fun m event =>
       match event with
       | DataEvent raw =>
           match pickle_loads_b64decode raw with
           | Ok m' => Some m'
           | Raise _ => m
           end
       | UpdatesEvent _ | OtherEvent => m
       end)
    events m.

(** The event carries an [activeTool] key. *)
Definition names_tool (event : Event) : bool :=
  match event with
  | UpdatesEvent changes =>
      match activeTool changes with
      | Some _ => true
      | None => false
      end
  | DataEvent _ | OtherEvent => false
  end.

(** The record a run of the Distance handler hands to the transport. *)
Definition distance_response_of_run `{Kernel} (out : list Effect)
  : option DistanceResponse :=
  match sent out with
  | Some (DistanceDict r) => Some r
  | _ => None
  end.

(** The shape/class combinations whose center depends on the mode. *)
Definition mode_sensitive `{Kernel} (shape : Shape) : bool :=
  match shape_class shape with
  | CEdge => is_circular shape
  | CFace => is_cylinder shape
  | CVertex | CSolid | COther => false
  end.

(** The shapes the Angle handler turns into a plane. *)
Definition gives_plane `{Kernel} (shape : Shape) : bool :=
  match shape_class shape with
  | CFace => true
  | CEdge => is_circular shape
  | CVertex | CSolid | COther => false
  end.

(** ** An exact kernel on integer coordinates

    A concrete [Kernel] and [Host], small enough to run: coordinates and
    measures are integers, angles are the multiples of 90 degrees, rounding
    is the identity.  The theorems below hold for every kernel; this one
    instantiates them. *)

Module Toy.

Definition vec : Type := Z * Z * Z.

#[local] Unset Elimination Schemes.
Inductive shape :=
| Shp (cls : ShapeClass) (kind : string) (ctr : vec) (arc : option vec)
      (size : Z) (dir : vec) (boundary : list shape).
#[local] Set Elimination Schemes.

Definition cls (s : shape) := let 'Shp c _ _ _ _ _ _ := s in c.
Definition kind (s : shape) := let 'Shp _ k _ _ _ _ _ := s in k.
Definition ctr (s : shape) := let 'Shp _ _ c _ _ _ _ := s in c.
Definition arc (s : shape) := let 'Shp _ _ _ a _ _ _ := s in a.
Definition size (s : shape) := let 'Shp _ _ _ _ n _ _ := s in n.
Definition dir (s : shape) := let 'Shp _ _ _ _ _ d _ := s in d.
Definition boundary (s : shape) := let 'Shp _ _ _ _ _ _ b := s in b.

Definition coords (v : vec) : list Z := let '(x, y, z) := v in [x; y; z].

Definition sub (v w : vec) : vec :=
  let '(x1, y1, z1) := v in
  let '(x2, y2, z2) := w in
  (x1 - x2, y1 - y2, z1 - z2)%Z.

Definition div (v : vec) (n : Z) : vec :=
  let '(x, y, z) := v in (x / n, y / n, z / n)%Z.

Definition norm (v : vec) : Z :=
  let '(x, y, z) := v in Z.sqrt (x * x + y * y + z * z).

Definition dot (v w : vec) : Z :=
  let '(x1, y1, z1) := v in
  let '(x2, y2, z2) := w in
  (x1 * x2 + y1 * y2 + z1 * z2)%Z.

Definition parallel (v w : vec) : bool :=
  let '(x1, y1, z1) := v in
  let '(x2, y2, z2) := w in
  ((y1 * z2 - z1 * y2 =? 0) && (z1 * x2 - x1 * z2 =? 0)
   && (x1 * y2 - y1 * x2 =? 0))%Z.

(** Angles in degrees, for directions a multiple of 90 degrees apart. *)
Definition angle (v w : vec) : Res Z :=
  if parallel v w then (if (0 <=? dot v w)%Z then Ok 0%Z else Ok 180%Z)
  else if (dot v w =? 0)%Z then Ok 90%Z
  else Raise (ValueError "angle is not a multiple of 90 degrees").

Definition geom_name (g : GeomType) : string :=
  match g with
  | CIRCLE => "CIRCLE"
  | ELLIPSE => "ELLIPSE"
  | CYLINDER => "CYLINDER"
  end.

Definition keep (g : GeomType) (l : list shape) : list shape :=
  List.filter (fun s => String.eqb (kind s) (geom_name g)) l.

Definition arc_of (s : shape) : Res vec :=
  match arc s with
  | Some a => Ok a
  | None => Raise (ValueError "Shape could not be reduced to a circle")
  end.

(** The length and the width of a face: the kernel has them for a planar
    face only. *)
Definition extent (s : shape) : Res (option Z) :=
  if String.eqb (kind s) "PLANE" then Ok (Some (size s)) else Ok None.

Definition tangent (s : shape) (u : Z) : Res vec :=
  match cls s with
  | CEdge => Ok (dir s)
  | _ => Raise (TypeError "unsupported operand type(s) for %")
  end.

#[export] Instance kernel : Kernel := {|
  Shape := shape;
  Vector := vec;
  Plane := vec * vec;
  Float := Z;
  shape_class := cls;
  geom_type := kind;
  shape_center := fun s => Ok (ctr s);
  arc_center := arc_of;
  shape_to_tuple := fun s => Ok (coords (ctr s));
  shape_radius := fun s => Ok (size s);
  shape_length := fun s => Ok (size s);
  face_length := extent;
  face_width := extent;
  shape_area := fun s => Ok (size s * size s)%Z;
  shape_volume := fun s => Ok (size s * size s * size s)%Z;
  edges := boundary;
  filter_by := keep;
  position_at := fun s _ => Ok (ctr s);
  tangent_at := tangent;
  normal := fun s => Ok (dir s);
  Plane_of_face := fun s => Ok (ctr s, dir s);
  Plane_of_origin := fun o n => Ok (o, n);
  z_dir := snd;
  get_angle := angle;
  vsub := sub;
  vdiv := div;
  vlength := norm;
  to_tuple := coords;
  float_of_Z := fun n => n;
  fsub := Z.sub;
  py_abs := Z.abs;
  py_round := fun x _ => x
|}.

Definition vertex (p : vec) : shape := Shp CVertex "Vertex" p None 0 (0, 0, 0)%Z [].
Definition line (p d : vec) (len : Z) : shape := Shp CEdge "LINE" p None len d [].
Definition circle (mid center n : vec) (r : Z) : shape :=
  Shp CEdge "CIRCLE" mid (Some center) r n [].
Definition plane_face (p n : vec) (side : Z) : shape := Shp CFace "PLANE" p None side n [].
Definition cylinder (p : vec) (rims : list shape) : shape :=
  Shp CFace "CYLINDER" p None 10 (0, 0, 1)%Z rims.
Definition box (p : vec) (side : Z) : shape := Shp CSolid "Solid" p None side (0, 0, 0)%Z [].

Definition rim0 : shape := circle (5, 0, 0)%Z (0, 0, 0)%Z (0, 0, 1)%Z 5.
Definition rim1 : shape := circle (5, 0, 10)%Z (0, 0, 10)%Z (0, 0, 1)%Z 5.

Definition seam : shape := line (5, 0, 0)%Z (0, 0, 1)%Z 10.

(** Cylinder faces with two, one, no and three circular boundary edges. *)
Definition band : shape := cylinder (5, 0, 5)%Z [rim0; seam; rim1].
Definition cap : shape := cylinder (5, 0, 0)%Z [rim0].
Definition cut : shape := cylinder (5, 0, 5)%Z [seam].
Definition trim : shape := cylinder (5, 0, 5)%Z [rim0; rim1; rim1].

Definition scene : gmap string shape :=
  list_to_map
    [("v0", vertex (0, 0, 0)%Z);
     ("v1", vertex (3, 4, 0)%Z);
     ("rim", rim0);
     ("band", band);
     ("cap", cap);
     ("cut", cut);
     ("floor", plane_face (0, 0, 0)%Z (0, 0, 1)%Z 10);
     ("ceiling", plane_face (0, 0, 10)%Z (0, 0, 1)%Z 10);
     ("wall", plane_face (0, 5, 5)%Z (0, 1, 0)%Z 10);
     ("edge", line (0, 0, 0)%Z (1, 0, 0)%Z 10);
     ("box", box (5, 5, 5)%Z 10)].

#[export] Instance host : Host (gmap string shape) (@Dict kernel) := {|
  pickle_loads_b64decode := fun raw =>
    if String.eqb raw "scene" then Ok scene
    else Raise (ValueError "invalid load key");
  transport := fun _ _ => None
|}.

(** A host whose transport always fails. *)
Definition offline : Host (gmap string shape) (@Dict kernel) := {|
  pickle_loads_b64decode := fun raw =>
    if String.eqb raw "scene" then Ok scene
    else Raise (ValueError "invalid load key");
  transport := fun _ _ => Some (OtherError "connection refused")
|}.

(** A backend on port 3939 with the scene loaded and a tool selected. *)
Definition backend (tool : option string) : @ViewerBackend kernel :=
  {| port := 3939; model := Some scene; activated_tool := tool;
     filter_type := "none" |}.

End Toy.

(** * Properties *)

Section Properties.
Context {K : Kernel} {H : Host (gmap string Shape) Dict}.
Local Open Scope res_scope.

Notation "x <- c ;; k" := (bind c (fun x => k))
  (at level 100, c at next level, right associativity).
Notation "c ;;; k" := (bind c (fun _ => k))
  (at level 100, k at level 200, right associativity).

(** ** Membership tests of the source, as string comparisons *)

Lemma py_in_circle_ellipse (k : string) :
  py_in (PyStr k) [PyGeom CIRCLE; PyGeom ELLIPSE; PyStr "CIRCLE"; PyStr "ELLIPSE"]
  = String.eqb k "CIRCLE" || String.eqb k "ELLIPSE".
Proof.
  unfold py_in; cbn [existsb py_eq].
  destruct (String.eqb k "CIRCLE"), (String.eqb k "ELLIPSE"); reflexivity.
Qed.

Lemma py_in_cylinder (k : string) :
  py_in (PyStr k) [PyGeom CYLINDER; PyStr "CYLINDER"] = String.eqb k "CYLINDER".
Proof.
  unfold py_in; cbn [existsb py_eq].
  destruct (String.eqb k "CYLINDER"); reflexivity.
Qed.

Lemma py_in_circle (k : string) :
  py_in (PyStr k) [PyStr "CIRCLE"] = String.eqb k "CIRCLE".
Proof.
  unfold py_in; cbn [existsb py_eq].
  destruct (String.eqb k "CIRCLE"); reflexivity.
Qed.

(** ** get_center, branch by branch *)

Lemma get_center_by_class (shape : Shape) (for_distance : bool) :
  get_center shape for_distance =
  match shape_class shape with
  | CVertex => shape_center shape
  | CEdge =>
      if is_circular shape
      then (if for_distance then arc_center shape else shape_center shape)
      else shape_center shape
  | CFace =>
      if is_cylinder shape && for_distance then
        match circular_boundary_edges shape with
        | [] => Raise (IndexError "list index out of range")
        | [e1; e2] => a <~ arc_center e1 ;; b <~ arc_center e2 ;; Ok (halfway a b)
        | e1 :: _ => arc_center e1
        end
      else shape_center shape
  | CSolid | COther => shape_center shape
  end.
Proof.
  unfold get_center, isinstance, is_circular, is_cylinder, circular_boundary_edges.
  rewrite py_in_circle_ellipse, py_in_cylinder.
  destruct (shape_class shape); cbn [ShapeClass_eqb]; try reflexivity.
  destruct (String.eqb (geom_type shape) "CYLINDER"); [|reflexivity].
  destruct for_distance; cbn [andb negb]; [|reflexivity].
  destruct (filter_by CIRCLE (edges shape)) as [|e1 [|e2 [|e3 rest]]];
    cbn; try reflexivity.
  unfold halfway. destruct (arc_center e1); cbn; [|reflexivity].
  destruct (arc_center e2); reflexivity.
Qed.

(** C1.  Center resolution follows the priority rules of the spec: a Vertex
    gives the kernel's center of the vertex (its own point) in both modes;
    an Edge of kind circle or ellipse gives its arc center in distance mode
    and its curve center otherwise; a cylinder Face in distance mode gives
    the point halfway between the arc centers of its two circular boundary
    edges when there are exactly two, and the arc center of the only one
    when there is exactly one; every other shape/mode combination, Solid
    included, gives the shape's generic center. *)
Theorem get_center_priority (shape : Shape) (for_distance : bool) :
  (shape_class shape = CVertex ->
   get_center shape for_distance = shape_center shape)
  /\ (shape_class shape = CEdge -> is_circular shape = true ->
      get_center shape for_distance
      = if for_distance then arc_center shape else shape_center shape)
  /\ (shape_class shape = CFace -> is_cylinder shape = true ->
      forall e1 e2, circular_boundary_edges shape = [e1; e2] ->
      get_center shape true
      = (a <~ arc_center e1 ;; b <~ arc_center e2 ;; Ok (halfway a b)))
  /\ (shape_class shape = CFace -> is_cylinder shape = true ->
      forall e1, circular_boundary_edges shape = [e1] ->
      get_center shape true = arc_center e1)
  /\ (special_rule shape for_distance = false ->
      get_center shape for_distance = shape_center shape).
Proof.
  repeat split.
  - intros Hc. rewrite get_center_by_class, Hc. reflexivity.
  - intros Hc Hk. rewrite get_center_by_class, Hc, Hk. reflexivity.
  - intros Hc Hk e1 e2 He. rewrite get_center_by_class, Hc, Hk, He. reflexivity.
  - intros Hc Hk e1 He. rewrite get_center_by_class, Hc, Hk, He. reflexivity.
  - unfold special_rule. rewrite get_center_by_class.
    destruct (shape_class shape); intros Hs; try discriminate; try reflexivity;
      rewrite Hs; reflexivity.
Qed.

(** C10.  For a cylinder Face in distance mode, get_center returns a point
    only when the face has a circular boundary edge: with two it is the
    point halfway between their arc centers, with any other non-zero number
    it is the arc center of the first, and with none the access to the
    first element of the empty list raises. *)
Theorem get_center_cylinder_distance (shape : Shape) :
  shape_class shape = CFace -> is_cylinder shape = true ->
  (forall e1 e2, circular_boundary_edges shape = [e1; e2] ->
   get_center shape true
   = (a <~ arc_center e1 ;; b <~ arc_center e2 ;; Ok (halfway a b)))
  /\ (forall e1 rest, circular_boundary_edges shape = e1 :: rest ->
      length rest <> 1%nat ->
      get_center shape true = arc_center e1)
  /\ (circular_boundary_edges shape = [] ->
      get_center shape true = Raise (IndexError "list index out of range"))
  /\ (forall p, get_center shape true = Ok p ->
      circular_boundary_edges shape <> []).
Proof.
  intros Hc Hk. rewrite get_center_by_class, Hc, Hk. cbn [andb].
  repeat split.
  - intros e1 e2 ->. reflexivity.
  - intros e1 rest -> Hlen. destruct rest as [|e2 [|e3 rest]]; cbn in Hlen;
      try reflexivity. congruence.
  - intros ->. reflexivity.
  - intros p Hp He. rewrite He in Hp. discriminate.
Qed.

(** ** The handlers as a pure computation followed by [respond] *)

Lemma respond_tail (d : Dict) (self : ViewerBackend) :
  (self0 <- get_self ;;
   send_response d (port self0) ;;;
   emit (StdoutDataSent d)) self
  = respond d self.
Proof.
  unfold bind, get_self, send_response, emit, respond.
  destruct (transport d (port self)); reflexivity.
Qed.

Lemma bind_getitem {A} (shape_id : string) (k : Shape -> M A) (self : ViewerBackend) :
  bind (model_getitem shape_id) k self =
  match lookup_shape self shape_id with
  | Ok shape => k shape self
  | Raise ex => (Raise ex, self, [])
  end.
Proof.
  unfold bind, model_getitem, lookup_shape.
  destruct (model self) as [m|]; [|reflexivity].
  destruct (m !! shape_id); [|reflexivity].
  destruct (k s self) as [[r self'] out]. reflexivity.
Qed.

Lemma bind_lift {A B} (c : Res A) (k : A -> M B) (self : ViewerBackend) :
  bind (lift c) k self =
  match c with
  | Ok a => k a self
  | Raise ex => (Raise ex, self, [])
  end.
Proof.
  unfold bind, lift. destruct c; [|reflexivity].
  destruct (k a self) as [[r self'] out]. reflexivity.
Qed.

Lemma handle_distance_run (id1 id2 : string) (self : ViewerBackend) :
  handle_distance id1 id2 self
  = finish (shape1 <~ lookup_shape self id1 ;;
            shape2 <~ lookup_shape self id2 ;;
            r <~ distance_spec shape1 shape2 ;;
            Ok (DistanceDict r)) self.
Proof.
  unfold handle_distance, distance_spec, finish.
  rewrite bind_getitem. destruct (lookup_shape self id1) as [s1|]; [|reflexivity].
  rewrite bind_getitem. destruct (lookup_shape self id2) as [s2|]; [|reflexivity].
  rewrite bind_lift. cbn [res_bind].
  destruct (get_center s1 true) as [p1|]; [|reflexivity].
  rewrite bind_lift. cbn [res_bind].
  destruct (get_center s2 true) as [p2|]; [|reflexivity].
  cbn [res_bind]. apply respond_tail.
Qed.

(** The type tests of the source select the pairing rule of the spec; the
    attribute and argument errors of the dynamic typing never occur. *)
Lemma angle_between_rule (first second : Reference) :
  angle_between first second = (a <~ angle_rule first second ;; Ok (py_abs a)).
Proof.
  unfold angle_between, angle_rule.
  destruct first as [p|v], second as [q|w]; cbn; reflexivity.
Qed.

Lemma handle_angle_run (id1 id2 : string) (self : ViewerBackend) :
  handle_angle id1 id2 self
  = finish (shape1 <~ lookup_shape self id1 ;;
            shape2 <~ lookup_shape self id2 ;;
            r <~ angle_spec shape1 shape2 ;;
            Ok (AngleDict r)) self.
Proof.
  unfold handle_angle, angle_spec, finish.
  rewrite bind_getitem. destruct (lookup_shape self id1) as [s1|]; [|reflexivity].
  rewrite bind_getitem. destruct (lookup_shape self id2) as [s2|]; [|reflexivity].
  rewrite bind_lift. cbn [res_bind].
  destruct (reference s1) as [r1|]; [|reflexivity].
  rewrite bind_lift. cbn [res_bind].
  destruct (reference s2) as [r2|]; [|reflexivity].
  rewrite bind_lift, angle_between_rule. cbn [res_bind].
  destruct (angle_rule r1 r2) as [a|]; [|reflexivity].
  cbn [res_bind]. rewrite bind_lift.
  destruct (get_center s1 true) as [p1|]; [|reflexivity].
  rewrite bind_lift. cbn [res_bind].
  destruct (get_center s2 true) as [p2|]; [|reflexivity].
  cbn [res_bind]. apply respond_tail.
Qed.

Ltac finish_label shape :=
  rewrite respond_tail; cbn [res_bind];
  destruct (String.eqb (capitalize (geom_type shape)) "Vertex"); reflexivity.

Lemma handle_properties_run (shape_id : string) (self : ViewerBackend) :
  handle_properties shape_id self
  = finish (shape <~ lookup_shape self shape_id ;;
            r <~ properties_spec shape ;;
            Ok (PropertiesDict (set_geom_type (stored_label shape) r))) self.
Proof.
  unfold handle_properties, properties_spec, finish, stored_label.
  rewrite bind_getitem.
  destruct (lookup_shape self shape_id) as [shape|]; [|reflexivity].
  rewrite bind_lift. cbn [res_bind].
  unfold isinstance, is_cylinder, circular_boundary_edges.
  rewrite py_in_circle. cbn [py_eq].
  destruct (shape_class shape); cbn [ShapeClass_eqb res_bind].
  - destruct (shape_to_tuple shape) as [t|]; [|reflexivity]. cbn [res_bind].
    rewrite bind_lift.
    destruct (get_center shape false) as [c|]; [|reflexivity].
    finish_label shape.
  - destruct (String.eqb (geom_type shape) "CIRCLE").
    + destruct (shape_radius shape) as [x|]; [|reflexivity]. cbn [res_bind].
      destruct (shape_length shape) as [l|]; [|reflexivity]. cbn [res_bind].
      rewrite bind_lift.
      destruct (get_center shape false) as [c|]; [|reflexivity].
      finish_label shape.
    + cbn [res_bind].
      destruct (shape_length shape) as [l|]; [|reflexivity]. cbn [res_bind].
      rewrite bind_lift.
      destruct (get_center shape false) as [c|]; [|reflexivity].
      finish_label shape.
  - destruct (String.eqb (geom_type shape) "CYLINDER").
    + destruct (ShapeList_first (filter_by CIRCLE (edges shape))) as [e|];
        [|reflexivity]. cbn [res_bind].
      destruct (shape_radius e) as [x|]; [|reflexivity]. cbn [res_bind].
      destruct (face_length shape) as [l|]; [|reflexivity]. cbn [res_bind].
      destruct (face_width shape) as [w|]; [|reflexivity]. cbn [res_bind].
      destruct (shape_area shape) as [a|]; [|reflexivity]. cbn [res_bind].
      rewrite bind_lift.
      destruct (get_center shape false) as [c|]; [|reflexivity].
      destruct l, w; finish_label shape.
    + cbn [res_bind].
      destruct (face_length shape) as [l|]; [|reflexivity]. cbn [res_bind].
      destruct (face_width shape) as [w|]; [|reflexivity]. cbn [res_bind].
      destruct (shape_area shape) as [a|]; [|reflexivity]. cbn [res_bind].
      rewrite bind_lift.
      destruct (get_center shape false) as [c|]; [|reflexivity].
      destruct l, w; finish_label shape.
  - destruct (shape_volume shape) as [v|]; [|reflexivity]. cbn [res_bind].
    rewrite bind_lift.
    destruct (get_center shape false) as [c|]; [|reflexivity].
    finish_label shape.
  - rewrite bind_lift.
    destruct (get_center shape false) as [c|]; [|reflexivity].
    finish_label shape.
Qed.

(** ** Dispatch *)

Lemma bind_get_self {A} (k : ViewerBackend -> M A) (self : ViewerBackend) :
  bind get_self k self = k self self.
Proof.
  unfold bind, get_self. destruct (k self self) as [[r self'] out]. reflexivity.
Qed.

Lemma bind_ret {A B} (a : A) (k : A -> M B) (self : ViewerBackend) :
  bind (ret a) k self = k a self.
Proof.
  unfold bind, ret. destruct (k a self) as [[r self'] out]. reflexivity.
Qed.

Lemma bind_set_activated_tool {A} (t : option string) (k : unit -> M A)
      (self : ViewerBackend) :
  bind (set_activated_tool t) k self = k tt (with_activated_tool t self).
Proof.
  unfold bind, set_activated_tool, with_activated_tool.
  match goal with |- context [k tt ?s] => destruct (k tt s) as [[r self'] out] end.
  reflexivity.
Qed.

Lemma tool_names_distinct :
  String.eqb Tool.Distance Tool.Properties = false
  /\ String.eqb Tool.Distance Tool.Angle = false
  /\ String.eqb Tool.Properties Tool.Angle = false
  /\ String.eqb Tool.Properties Tool.Distance = false
  /\ String.eqb Tool.Angle Tool.Distance = false
  /\ String.eqb Tool.Angle Tool.Properties = false.
Proof. repeat split; reflexivity. Qed.

Lemma handle_activated_tool_run (a : option string) (ids : list string)
      (self : ViewerBackend) :
  handle_activated_tool {| activeTool := a; selectedShapeIDs := Some ids |} self
  = match selected_handler (activated_tool self) ids with
    | Some i => invoke i self
    | None => (Ok tt, self, [])
    end.
Proof.
  unfold handle_activated_tool. cbn [selectedShapeIDs].
  rewrite bind_get_self. unfold tool_is, selected_handler.
  destruct (activated_tool self) as [t|].
  - destruct (String.eqb t Tool.Distance), (String.eqb t Tool.Properties),
      (String.eqb t Tool.Angle);
      destruct ids as [|i1 [|i2 [|i3 rest]]]; cbn [length Nat.eqb andb];
      try reflexivity;
      repeat (rewrite bind_lift; cbn [getitem nth_error]); reflexivity.
  - destruct ids as [|i1 [|i2 [|i3 rest]]]; reflexivity.
Qed.

Lemma selection_changed_run (ids : list string) (self : ViewerBackend) :
  handle_event_body (selection_changed ids) self
  = match selected_handler (activated_tool self) ids with
    | Some i => invoke i self
    | None => (Ok tt, self, [])
    end.
Proof.
  unfold handle_event_body, selection_changed. cbn [activeTool].
  rewrite bind_ret, bind_get_self.
  destruct (activated_tool self) as [t|] eqn:Ht.
  - rewrite handle_activated_tool_run, Ht. reflexivity.
  - destruct ids as [|i1 [|i2 rest]]; reflexivity.
Qed.

Lemma arity_matches_selected (tool : option string) (ids : list string) :
  match selected_handler tool ids with
  | Some _ => arity_matches tool ids = true
  | None => arity_matches tool ids = false
  end.
Proof.
  destruct tool_names_distinct as (Hdp & Hda & Hpa & Hpd & Had & Hap).
  unfold selected_handler, arity_matches, required_arity.
  destruct tool as [t|]; [|destruct ids as [|i1 [|i2 rest]]; reflexivity].
  destruct (String.eqb_spec t Tool.Distance) as [->|_].
  { rewrite Hdp. destruct ids as [|i1 [|i2 [|i3 rest]]]; reflexivity. }
  destruct (String.eqb_spec t Tool.Properties) as [->|_].
  { destruct ids as [|i1 [|i2 [|i3 rest]]]; reflexivity. }
  destruct (String.eqb t Tool.Angle);
    destruct ids as [|i1 [|i2 [|i3 rest]]]; reflexivity.
Qed.

Lemma finish_observable (c : Res Dict) (self : ViewerBackend) :
  finish c self <> (Ok tt, self, []).
Proof.
  unfold finish, respond. destruct c as [d|ex]; [|discriminate].
  destruct (transport d (port self)); discriminate.
Qed.

Lemma finish_final (c : Res Dict) (self : ViewerBackend) :
  final (finish c self) = self.
Proof.
  unfold finish, respond, final. destruct c as [d|ex]; [|reflexivity].
  destruct (transport d (port self)); reflexivity.
Qed.

Lemma invoke_finish (i : Invocation) (self : ViewerBackend) :
  exists c, invoke i self = finish c self.
Proof.
  destruct i; cbn [invoke]; eexists.
  - apply handle_distance_run.
  - apply handle_properties_run.
  - apply handle_angle_run.
Qed.

(** C2.  On a selection-change event a measurement handler is invoked
    exactly when a tool is active and the selection has exactly the arity
    of that tool (Distance 2, Properties 1, Angle 2): then the run is the
    run of that handler on the identifiers in their order, which always
    sends or raises; in every other case (no tool, unknown tool, wrong
    length) the run changes nothing, emits nothing and raises nothing. *)
Theorem dispatch_iff_arity (self : ViewerBackend) (ids : list string) :
  (arity_matches (activated_tool self) ids = true ->
   exists i, selected_handler (activated_tool self) ids = Some i
             /\ handle_event_body (selection_changed ids) self = invoke i self
             /\ handle_event_body (selection_changed ids) self <> (Ok tt, self, []))
  /\ (arity_matches (activated_tool self) ids = false ->
      handle_event_body (selection_changed ids) self = (Ok tt, self, [])).
Proof.
  rewrite selection_changed_run.
  pose proof (arity_matches_selected (activated_tool self) ids) as Hsel.
  destruct (selected_handler (activated_tool self) ids) as [i|].
  - split; [|intros Hf; congruence].
    intros _. exists i. repeat split.
    destruct (invoke_finish i self) as [c ->]. apply finish_observable.
  - split; [intros Ht; congruence|reflexivity].
Qed.

(** C9.  When one updates event carries both [activeTool] and
    [selectedShapeIDs], the tool is updated first and the dispatch uses the
    tool named in the event; an event that sets the tool to "None" and
    carries a selection invokes no handler and emits nothing. *)
Theorem tool_update_before_dispatch (self : ViewerBackend) (t : string)
        (ids : list string) :
  handle_event_body
    (UpdatesEvent {| activeTool := Some t; selectedShapeIDs := Some ids |}) self
  = match selected_handler (tool_of_literal t) ids with
    | Some i => invoke i (with_activated_tool (tool_of_literal t) self)
    | None => (Ok tt, with_activated_tool (tool_of_literal t) self, [])
    end
  /\ handle_event_body
       (UpdatesEvent {| activeTool := Some "None"; selectedShapeIDs := Some ids |}) self
     = (Ok tt, with_activated_tool None self, []).
Proof.
  assert (Hrun : forall u,
    handle_event_body
      (UpdatesEvent {| activeTool := Some u; selectedShapeIDs := Some ids |}) self
    = handle_event_body (selection_changed ids)
        (with_activated_tool (tool_of_literal u) self)).
  { intros u. unfold handle_event_body, selection_changed, tool_of_literal.
    cbn [activeTool]. rewrite bind_ret.
    destruct (String.eqb u "None"); cbn [negb];
      rewrite bind_set_activated_tool; reflexivity. }
  split.
  - rewrite Hrun, selection_changed_run. reflexivity.
  - rewrite Hrun, selection_changed_run. reflexivity.
Qed.

(** C3 as amended.  The tool-state update maps the literal "None" to the
    inactive state and stores every other literal, recognized or not, as
    the active tool; it never raises. *)
Theorem tool_update_permissive (self : ViewerBackend) (t : string) :
  handle_event_body
    (UpdatesEvent {| activeTool := Some t; selectedShapeIDs := None |}) self
  = (Ok tt,
     with_activated_tool (if String.eqb t "None" then None else Some t) self,
     []).
Proof.
  unfold handle_event_body. cbn [activeTool].
  destruct (String.eqb t "None"); cbn [negb];
    rewrite bind_set_activated_tool, bind_get_self; reflexivity.
Qed.

(** ** The error boundary *)

Lemma handle_event_run (event : Event) (self : ViewerBackend) :
  handle_event event self =
  match outcome (handle_event_body event self) with
  | Ok _ =>
      (Ok tt, final (handle_event_body event self),
       effects (handle_event_body event self))
  | Raise ex =>
      (Ok tt, final (handle_event_body event self),
       (effects (handle_event_body event self)
        ++ [Stdout "The following error happened, backend still running";
            Traceback ex])%list)
  end.
Proof.
  unfold handle_event, error_handler, outcome, final, effects.
  destruct (handle_event_body event self) as [[[u|ex] self'] out]; reflexivity.
Qed.

Lemma handle_activated_tool_final (changes : Changes) (self : ViewerBackend) :
  final (handle_activated_tool changes self) = self.
Proof.
  destruct changes as [a [ids|]]; [|reflexivity].
  rewrite handle_activated_tool_run.
  destruct (selected_handler (activated_tool self) ids) as [i|]; [|reflexivity].
  destruct (invoke_finish i self) as [c ->]. apply finish_final.
Qed.

Lemma handle_event_body_final (event : Event) (self : ViewerBackend) :
  final (handle_event_body event self) =
  match event with
  | DataEvent raw =>
      match pickle_loads_b64decode raw with
      | Ok m => with_model m self
      | Raise _ => self
      end
  | UpdatesEvent _ | OtherEvent => after_tool_update event self
  end.
Proof.
  destruct event as [raw|changes|]; [| |reflexivity].
  - unfold handle_event_body, load_model. rewrite bind_lift.
    destruct (pickle_loads_b64decode raw); reflexivity.
  - assert (Hrest : forall s,
      final ((self0 <- get_self ;;
              match activated_tool self0 with
              | Some _ => handle_activated_tool changes
              | None => ret tt
              end) s) = s).
    { intros s. rewrite bind_get_self. destruct (activated_tool s).
      - apply handle_activated_tool_final.
      - reflexivity. }
    unfold handle_event_body, after_tool_update, tool_of_literal.
    destruct (activeTool changes) as [t|].
    + destruct (String.eqb t "None"); cbn [negb];
        rewrite bind_set_activated_tool; apply Hrest.
    + rewrite bind_ret. apply Hrest.
Qed.

(** C6.  The decorated entry point never raises, whatever the event.  The
    backend it leaves is the one before the event with, at most, the model
    replaced by a successfully decoded one or the tool replaced by the
    event's [activeTool]; when the body raises, the diagnostic and the
    traceback are printed after the effects already made, the model is the
    previous one, and the backend differs from the previous one by the
    complete tool update at most (a failing model load changes nothing). *)
Theorem error_boundary (event : Event) (self : ViewerBackend) :
  outcome (handle_event event self) = Ok tt
  /\ final (handle_event event self) =
     match event with
     | DataEvent raw =>
         match pickle_loads_b64decode raw with
         | Ok m => with_model m self
         | Raise _ => self
         end
     | UpdatesEvent _ | OtherEvent => after_tool_update event self
     end
  /\ (forall ex, outcome (handle_event_body event self) = Raise ex ->
      effects (handle_event event self)
      = (effects (handle_event_body event self)
         ++ [Stdout "The following error happened, backend still running";
             Traceback ex])%list
      /\ model (final (handle_event event self)) = model self
      /\ final (handle_event event self) = after_tool_update event self).
Proof.
  pose proof (handle_event_body_final event self) as Hfin.
  rewrite handle_event_run.
  split; [destruct (outcome (handle_event_body event self)); reflexivity|].
  split; [destruct (outcome (handle_event_body event self)); exact Hfin|].
  intros ex Hex. rewrite Hex. split; [reflexivity|].
  cbn [final fst snd]. fold (final (handle_event_body event self)).
  assert (Hupd : final (handle_event_body event self) = after_tool_update event self).
  { rewrite Hfin. destruct event as [raw|changes|]; try reflexivity.
    revert Hex. unfold handle_event_body, load_model, outcome.
    rewrite bind_lift. destruct (pickle_loads_b64decode raw); [discriminate|].
    reflexivity. }
  split; [|exact Hupd].
  rewrite Hupd. destruct event as [raw|[[t|] ids]|]; reflexivity.
Qed.

(** ** Distance *)

Lemma sent_finish (c : Res Dict) (self : ViewerBackend) :
  sent (effects (finish c self)) =
  match c with
  | Ok d => Some d
  | Raise _ => None
  end.
Proof.
  unfold finish, respond, effects. destruct c as [d|ex]; [|reflexivity].
  destruct (transport d (port self)); reflexivity.
Qed.

Lemma distance_of_handle_distance (id1 id2 : string) (self : ViewerBackend) :
  distance_of_run (effects (handle_distance id1 id2 self)) =
  match lookup_shape self id1, lookup_shape self id2 with
  | Ok shape1, Ok shape2 =>
      match get_center shape1 true, get_center shape2 true with
      | Ok p1, Ok p2 => Some (round2 (vlength (vsub p2 p1)))
      | _, _ => None
      end
  | _, _ => None
  end.
Proof.
  unfold distance_of_run. rewrite handle_distance_run, sent_finish.
  unfold distance_spec.
  destruct (lookup_shape self id1) as [s1|]; [|reflexivity].
  destruct (lookup_shape self id2) as [s2|]; [|reflexivity].
  cbn [res_bind].
  destruct (get_center s1 true) as [p1|]; [|reflexivity].
  destruct (get_center s2 true) as [p2|]; reflexivity.
Qed.

(** C7.  When the kernel's length of a difference does not depend on the
    order of the two points, is zero for a point and itself, and zero
    rounds to zero, the distance the Distance handler computes is symmetric
    in its two shapes, and the distance of a shape of the model to itself
    is 0. *)
Theorem distance_symmetric
        (Hsym : forall p q : Vector, vlength (vsub p q) = vlength (vsub q p))
        (Hself : forall p : Vector, vlength (vsub p p) = float_of_Z 0)
        (Hround : py_round (float_of_Z 0) 2 = float_of_Z 0)
        (self : ViewerBackend) (id1 id2 : string) :
  distance_of_run (effects (handle_distance id1 id2 self))
  = distance_of_run (effects (handle_distance id2 id1 self))
  /\ (forall shape p,
      lookup_shape self id1 = Ok shape -> get_center shape true = Ok p ->
      distance_of_run (effects (handle_distance id1 id1 self))
      = Some (float_of_Z 0)).
Proof.
  split.
  - rewrite !distance_of_handle_distance.
    destruct (lookup_shape self id1) as [s1|], (lookup_shape self id2) as [s2|];
      try reflexivity.
    destruct (get_center s1 true) as [p1|], (get_center s2 true) as [p2|];
      try reflexivity.
    rewrite Hsym. reflexivity.
  - intros shape p Hshape Hp.
    rewrite distance_of_handle_distance, Hshape, Hp.
    unfold round2. rewrite Hself, Hround. reflexivity.
Qed.

(** ** Angle *)

Lemma angle_rule_swap
      (Hsym : forall v w : Vector, get_angle v w = get_angle w v)
      (first second : Reference) :
  angle_rule first second = angle_rule second first.
Proof.
  destruct first as [p|v], second as [q|w]; cbn [angle_rule];
    try reflexivity; apply Hsym.
Qed.

Lemma angle_of_handle_angle (id1 id2 : string) (self : ViewerBackend) :
  angle_of_run (effects (handle_angle id1 id2 self)) =
  match lookup_shape self id1, lookup_shape self id2 with
  | Ok shape1, Ok shape2 =>
      match angle_spec shape1 shape2 with
      | Ok r => Some r
      | Raise _ => None
      end
  | _, _ => None
  end.
Proof.
  unfold angle_of_run. rewrite handle_angle_run, sent_finish.
  destruct (lookup_shape self id1) as [s1|]; [|reflexivity].
  destruct (lookup_shape self id2) as [s2|]; [|reflexivity].
  cbn [res_bind]. destruct (angle_spec s1 s2); reflexivity.
Qed.

(** C8.  When the kernel's [get_angle] is symmetric, swapping the two
    arguments of the Angle handler gives a response exactly when the
    original order gives one, with the same absolute angle and with point1
    and point2 exchanged. *)
Theorem angle_swap
        (Hsym : forall v w : Vector, get_angle v w = get_angle w v)
        (self : ViewerBackend) (id1 id2 : string) :
  match angle_of_run (effects (handle_angle id1 id2 self)),
        angle_of_run (effects (handle_angle id2 id1 self)) with
  | Some r, Some r' =>
      ang_angle r = ang_angle r'
      /\ ang_point1 r = ang_point2 r'
      /\ ang_point2 r = ang_point1 r'
  | None, None => True
  | _, _ => False
  end.
Proof.
  rewrite !angle_of_handle_angle.
  destruct (lookup_shape self id1) as [s1|], (lookup_shape self id2) as [s2|];
    try exact I.
  unfold angle_spec.
  destruct (reference s1) as [r1|], (reference s2) as [r2|];
    cbn [res_bind]; try exact I.
  rewrite (angle_rule_swap Hsym r2 r1).
  destruct (angle_rule r1 r2) as [a|]; cbn [res_bind]; [|exact I].
  destruct (get_center s1 true) as [p1|], (get_center s2 true) as [p2|];
    cbn [res_bind ang_angle ang_point1 ang_point2]; try exact I.
  repeat split.
Qed.

(** C5.  For two shapes of the model whose references and distance-mode
    centers the kernel gives, the Angle handler computes the angle by the
    pairing of the reference kinds (plane and plane: between the normals;
    vector and vector: between the vectors; plane and vector in either
    order: 90 minus the angle between the normal and the vector) and sends
    its absolute value rounded to 2 decimals with the two centers as point1
    and point2; when the kernel cannot give the angle, its exception is
    raised and nothing is sent. *)
Theorem handle_angle_by_reference_kinds
        (self : ViewerBackend) (id1 id2 : string) (shape1 shape2 : Shape)
        (first second : Reference) (p1 p2 : Vector) :
  lookup_shape self id1 = Ok shape1 -> lookup_shape self id2 = Ok shape2 ->
  reference shape1 = Ok first -> reference shape2 = Ok second ->
  get_center shape1 true = Ok p1 -> get_center shape2 true = Ok p2 ->
  handle_angle id1 id2 self =
  match
    match first, second with
    | RefPlane p, RefPlane q => get_angle (z_dir p) (z_dir q)
    | RefVector v, RefVector w => get_angle v w
    | RefPlane p, RefVector v
    | RefVector v, RefPlane p =>
        a <~ get_angle (z_dir p) v ;; Ok (fsub (float_of_Z 90) a)
    end
  with
  | Ok a =>
      respond (AngleDict {| ang_angle := Some (py_round (py_abs a) 2);
                            ang_point1 := Some (rounded (to_tuple p1));
                            ang_point2 := Some (rounded (to_tuple p2)) |}) self
  | Raise ex => (Raise ex, self, [])
  end.
Proof.
  intros H1 H2 Hf Hs Hp1 Hp2.
  rewrite handle_angle_run, H1, H2. cbn [res_bind].
  unfold angle_spec. rewrite Hf, Hs. cbn [res_bind].
  change (match first with
          | RefPlane p =>
              match second with
              | RefPlane q => get_angle (z_dir p) (z_dir q)
              | RefVector v =>
                  a <~ get_angle (z_dir p) v ;; Ok (fsub (float_of_Z 90) a)
              end
          | RefVector v =>
              match second with
              | RefPlane p =>
                  a <~ get_angle (z_dir p) v ;; Ok (fsub (float_of_Z 90) a)
              | RefVector w => get_angle v w
              end
          end) with (angle_rule first second).
  destruct (angle_rule first second) as [a|]; [|reflexivity].
  cbn [res_bind]. rewrite Hp1, Hp2. reflexivity.
Qed.

(** ** Properties *)

Lemma properties_spec_label (shape : Shape) (r : PropertiesResponse) :
  properties_spec shape = Ok r ->
  prop_geom_type r =
  match shape_class shape with
  | CVertex => None
  | _ => Some (capitalize (geom_type shape))
  end.
Proof.
  unfold properties_spec.
  destruct (shape_class shape);
    repeat match goal with
           | |- context [res_bind ?c _] =>
               let x := fresh in destruct c as [x|]; cbn [res_bind]
           | |- context [if ?b then _ else _] => destruct b
           end;
    intros Heq; inversion Heq; reflexivity.
Qed.

Lemma set_geom_type_same (r : PropertiesResponse) :
  set_geom_type (prop_geom_type r) r = r.
Proof. destruct r; reflexivity. Qed.

(** C4 as amended.  For a shape of the model that the kernel labels
    "Vertex" exactly when it is a Vertex, the Properties handler sends
    exactly the fields of its variant: a Vertex only [vertex_coords]; an
    Edge [length], and [radius] exactly when its kind is CIRCLE; a Face
    [area], with [length] and [width] as the kernel reports them (each
    absent when the kernel has none, as for a face that is not planar), and
    [radius] of its first circular boundary edge exactly when its kind is
    CYLINDER; a Solid only [volume]; with them the capitalized label as
    [geom_type], absent exactly for a Vertex, and the non-distance-mode
    center (all floats rounded to 2 decimals). *)
Theorem handle_properties_fields
        (self : ViewerBackend) (shape_id : string) (shape : Shape) :
  lookup_shape self shape_id = Ok shape ->
  (capitalize (geom_type shape) = "Vertex" <-> shape_class shape = CVertex) ->
  handle_properties shape_id self
  = finish (r <~ properties_spec shape ;; Ok (PropertiesDict r)) self.
Proof.
  intros Hshape Hlabel.
  rewrite handle_properties_run, Hshape. cbn [res_bind].
  destruct (properties_spec shape) as [r|] eqn:Hr; [|reflexivity].
  cbn [res_bind]. do 3 f_equal.
  rewrite <- (set_geom_type_same r) at 2. f_equal.
  rewrite (properties_spec_label shape r Hr). unfold stored_label.
  destruct (String.eqb_spec (capitalize (geom_type shape)) "Vertex") as [Heq|Hne].
  - apply Hlabel in Heq. rewrite Heq. reflexivity.
  - destruct (shape_class shape) eqn:Hc; try reflexivity.
    exfalso. apply Hne, Hlabel. reflexivity.
Qed.

End Properties.

(** * The theorems on the integer kernel *)

Module ToyFacts.
Import Toy.

Lemma norm_sub_sym (p q : vec) : norm (sub p q) = norm (sub q p).
Proof.
  destruct p as [[x1 y1] z1], q as [[x2 y2] z2]. cbn [sub norm].
  f_equal. ring.
Qed.

Lemma norm_sub_self (p : vec) : norm (sub p p) = 0%Z.
Proof.
  destruct p as [[x y] z]. cbn [sub norm]. rewrite !Z.sub_diag. reflexivity.
Qed.

Lemma dot_sym (v w : vec) : dot v w = dot w v.
Proof.
  destruct v as [[x1 y1] z1], w as [[x2 y2] z2]. cbn [dot]. ring.
Qed.

Lemma eqb_zero_opp (a b : Z) : (a + b = 0)%Z -> (a =? 0)%Z = (b =? 0)%Z.
Proof.
  intros Hab. destruct (Z.eqb_spec a 0), (Z.eqb_spec b 0); try reflexivity; lia.
Qed.

Lemma parallel_sym (v w : vec) : parallel v w = parallel w v.
Proof.
  destruct v as [[x1 y1] z1], w as [[x2 y2] z2]. cbn [parallel].
  f_equal; [f_equal|]; apply eqb_zero_opp; ring.
Qed.

Lemma angle_sym (v w : vec) : angle v w = angle w v.
Proof.
  unfold angle. rewrite (parallel_sym v w), (dot_sym v w). reflexivity.
Qed.

(** Scenario 2 of the spec: two vertices at (0,0,0) and (3,4,0) under the
    Distance tool. *)
Example scenario_distance :
  sent (effects (handle_event (selection_changed ["v0"; "v1"])
                              (backend (Some Tool.Distance))))
  = Some (DistanceDict {| dist_point1 := Some [0; 0; 0]%Z;
                          dist_point2 := Some [3; 4; 0]%Z;
                          dist_distance := Some 5%Z |}).
Proof. reflexivity. Qed.

(** Scenario 1 of the spec, on the vertex (3,4,0): only [vertex_coords]
    and the center are populated, [geom_type] is absent. *)
Example scenario_vertex :
  sent (effects (handle_event (selection_changed ["v1"])
                              (backend (Some Tool.Properties))))
  = Some (PropertiesDict
            {| prop_center := Some [3; 4; 0]%Z;
               prop_vertex_coords := Some [3; 4; 0]%Z;
               prop_length := None; prop_width := None; prop_area := None;
               prop_volume := None; prop_radius := None;
               prop_geom_type := None |}).
Proof. reflexivity. Qed.

(** Scenario 4 of the spec: two faces with parallel normals are at angle 0. *)
Example scenario_parallel_faces :
  angle_of_run (effects (handle_event (selection_changed ["floor"; "ceiling"])
                                      (backend (Some Tool.Angle))))
  = Some {| ang_angle := Some 0%Z;
            ang_point1 := Some [0; 0; 0]%Z;
            ang_point2 := Some [0; 0; 10]%Z |}.
Proof. reflexivity. Qed.

(** Scenario 5 of the spec: after the tool is set to "None", a selection
    gives no response. *)
Example scenario_no_tool :
  handle_event (selection_changed ["v0"; "v1"])
    (final (handle_event
              (UpdatesEvent {| activeTool := Some "None"; selectedShapeIDs := None |})
              (backend (Some Tool.Distance))))
  = (Ok tt, backend None, []).
Proof. reflexivity. Qed.

(** Scenario 3 of the spec: the properties of a circular edge carry the
    radius, the curve center (not the arc center) and the label "Circle". *)
Example scenario_circle :
  sent (effects (handle_event (selection_changed ["rim"])
                              (backend (Some Tool.Properties))))
  = Some (PropertiesDict
            {| prop_center := Some [5; 0; 0]%Z; prop_vertex_coords := None;
               prop_length := Some 5%Z; prop_width := None; prop_area := None;
               prop_volume := None; prop_radius := Some 5%Z;
               prop_geom_type := Some "Circle" |}).
Proof. reflexivity. Qed.

Lemma get_center_priority_witness :
  get_center (vertex (1, 2, 3)%Z) false = Ok (1, 2, 3)%Z
  /\ get_center rim0 true = Ok (0, 0, 0)%Z
  /\ get_center rim0 false = Ok (5, 0, 0)%Z
  /\ get_center band true = Ok (0, 0, 5)%Z
  /\ get_center cap true = Ok (0, 0, 0)%Z
  /\ get_center band false = Ok (5, 0, 5)%Z
  /\ get_center (box (5, 5, 5)%Z 10) true = Ok (5, 5, 5)%Z.
Proof.
  split_and!.
  - exact (proj1 (get_center_priority (vertex (1, 2, 3)%Z) false) eq_refl).
  - exact (proj1 (proj2 (get_center_priority rim0 true)) eq_refl eq_refl).
  - exact (proj1 (proj2 (get_center_priority rim0 false)) eq_refl eq_refl).
  - exact (proj1 (proj2 (proj2 (get_center_priority band true)))
             eq_refl eq_refl rim0 rim1 eq_refl).
  - exact (proj1 (proj2 (proj2 (proj2 (get_center_priority cap true))))
             eq_refl eq_refl rim0 eq_refl).
  - exact (proj2 (proj2 (proj2 (proj2 (get_center_priority band false))))
             eq_refl).
  - exact (proj2 (proj2 (proj2 (proj2
             (get_center_priority (box (5, 5, 5)%Z 10) true)))) eq_refl).
Defined.

Lemma get_center_cylinder_distance_witness :
  shape_class band = CFace /\ is_cylinder band = true
  /\ get_center band true = Ok (0, 0, 5)%Z
  /\ get_center trim true = Ok (0, 0, 0)%Z
  /\ get_center cut true = Raise (IndexError "list index out of range").
Proof.
  split; [reflexivity|]. split; [reflexivity|].
  split_and!.
  - exact (proj1 (get_center_cylinder_distance band eq_refl eq_refl)
             rim0 rim1 eq_refl).
  - refine (proj1 (proj2 (get_center_cylinder_distance trim eq_refl eq_refl))
              rim0 [rim1; rim1] eq_refl _).
    cbn. lia.
  - exact (proj1 (proj2 (proj2
             (get_center_cylinder_distance cut eq_refl eq_refl))) eq_refl).
Defined.

Lemma dispatch_iff_arity_witness :
  arity_matches (Some Tool.Distance) ["v0"; "v1"] = true
  /\ (exists i,
        selected_handler (Some Tool.Distance) ["v0"; "v1"] = Some i
        /\ handle_event_body (selection_changed ["v0"; "v1"])
                             (backend (Some Tool.Distance))
           = invoke i (backend (Some Tool.Distance))
        /\ handle_event_body (selection_changed ["v0"; "v1"])
                             (backend (Some Tool.Distance))
           <> (Ok tt, backend (Some Tool.Distance), []))
  /\ arity_matches (Some Tool.Distance) ["v0"] = false
  /\ handle_event_body (selection_changed ["v0"]) (backend (Some Tool.Distance))
     = (Ok tt, backend (Some Tool.Distance), []).
Proof.
  split; [reflexivity|]. split.
  - exact (proj1 (dispatch_iff_arity (backend (Some Tool.Distance)) ["v0"; "v1"])
             eq_refl).
  - split; [reflexivity|].
    exact (proj2 (dispatch_iff_arity (backend (Some Tool.Distance)) ["v0"])
             eq_refl).
Defined.

(** C3 as stated fails: an unrecognized tool name is not rejected.  The
    update with the literal "Hammer", which the dispatch table does not
    have, raises nothing, prints no diagnostic and leaves "Hammer" as the
    active tool. *)
Lemma tool_update_accepts_unknown :
  required_arity "Hammer" = None
  /\ (forall ex,
      outcome (handle_event_body
                 (UpdatesEvent {| activeTool := Some "Hammer";
                                  selectedShapeIDs := None |})
                 (backend None)) <> Raise ex)
  /\ handle_event
       (UpdatesEvent {| activeTool := Some "Hammer"; selectedShapeIDs := None |})
       (backend None)
     = (Ok tt, backend (Some "Hammer"), []).
Proof.
  split; [reflexivity|]. split; [|reflexivity].
  intros ex Hex. discriminate Hex.
Qed.

Lemma error_boundary_witness :
  outcome (handle_event_body (DataEvent "garbage") (backend (Some Tool.Angle)))
  = Raise (ValueError "invalid load key")
  /\ outcome (handle_event (DataEvent "garbage") (backend (Some Tool.Angle)))
     = Ok tt
  /\ effects (handle_event (DataEvent "garbage") (backend (Some Tool.Angle)))
     = [Stdout "The following error happened, backend still running";
        Traceback (ValueError "invalid load key")]
  /\ final (handle_event (DataEvent "garbage") (backend (Some Tool.Angle)))
     = backend (Some Tool.Angle).
Proof.
  pose proof (error_boundary (DataEvent "garbage") (backend (Some Tool.Angle)))
    as (Hok & _ & Hfail).
  destruct (Hfail (ValueError "invalid load key") eq_refl) as (Hout & _ & Hfin).
  split; [reflexivity|]. split_and!; [exact Hok | exact Hout | exact Hfin].
Defined.

Lemma distance_symmetric_witness :
  distance_of_run (effects (handle_distance "v0" "v1" (backend None)))
  = distance_of_run (effects (handle_distance "v1" "v0" (backend None)))
  /\ distance_of_run (effects (handle_distance "v1" "v1" (backend None)))
     = Some 0%Z.
Proof.
  split.
  - exact (proj1 (distance_symmetric norm_sub_sym norm_sub_self eq_refl
                    (backend None) "v0" "v1")).
  - exact (proj2 (distance_symmetric norm_sub_sym norm_sub_self eq_refl
                    (backend None) "v1" "v1")
             (vertex (3, 4, 0)%Z) (3, 4, 0)%Z eq_refl eq_refl).
Defined.

Lemma angle_swap_witness :
  match angle_of_run (effects (handle_angle "floor" "edge" (backend None))),
        angle_of_run (effects (handle_angle "edge" "floor" (backend None))) with
  | Some r, Some r' =>
      ang_angle r = ang_angle r'
      /\ ang_point1 r = ang_point2 r'
      /\ ang_point2 r = ang_point1 r'
  | None, None => True
  | _, _ => False
  end.
Proof. exact (angle_swap angle_sym (backend None) "floor" "edge"). Defined.

Lemma handle_angle_by_reference_kinds_witness :
  handle_angle "floor" "wall" (backend None)
  = respond (AngleDict {| ang_angle := Some 90%Z;
                          ang_point1 := Some [0; 0; 0]%Z;
                          ang_point2 := Some [0; 5; 5]%Z |}) (backend None).
Proof.
  exact (handle_angle_by_reference_kinds (backend None) "floor" "wall"
           (plane_face (0, 0, 0)%Z (0, 0, 1)%Z 10)
           (plane_face (0, 5, 5)%Z (0, 1, 0)%Z 10)
           (RefPlane ((0, 0, 0)%Z, (0, 0, 1)%Z))
           (RefPlane ((0, 5, 5)%Z, (0, 1, 0)%Z))
           (0, 0, 0)%Z (0, 5, 5)%Z
           eq_refl eq_refl eq_refl eq_refl eq_refl eq_refl).
Defined.

(** C4 as stated fails: a Face does not always yield [length] and [width].
    For the cylinder face "band" the kernel has no length and no width, and
    the response carries neither, beside its area, radius and label. *)
Lemma properties_cylinder_face_no_length :
  lookup_shape (backend None) "band" = Ok band
  /\ shape_class band = CFace
  /\ face_length band = Ok None /\ face_width band = Ok None
  /\ handle_properties "band" (backend None)
     = respond (PropertiesDict
                  {| prop_center := Some [5; 0; 5]%Z; prop_vertex_coords := None;
                     prop_length := None; prop_width := None;
                     prop_area := Some 100%Z; prop_volume := None;
                     prop_radius := Some 5%Z;
                     prop_geom_type := Some "Cylinder" |}) (backend None).
Proof. repeat split. Qed.

Lemma handle_properties_fields_witness :
  (capitalize (geom_type rim0) = "Vertex" <-> shape_class rim0 = CVertex)
  /\ handle_properties "rim" (backend None)
     = respond (PropertiesDict
                  {| prop_center := Some [5; 0; 0]%Z; prop_vertex_coords := None;
                     prop_length := Some 5%Z; prop_width := None;
                     prop_area := None; prop_volume := None;
                     prop_radius := Some 5%Z;
                     prop_geom_type := Some "Circle" |}) (backend None)
  /\ (capitalize (geom_type band) = "Vertex" <-> shape_class band = CVertex)
  /\ handle_properties "band" (backend None)
     = respond (PropertiesDict
                  {| prop_center := Some [5; 0; 5]%Z; prop_vertex_coords := None;
                     prop_length := None; prop_width := None;
                     prop_area := Some 100%Z; prop_volume := None;
                     prop_radius := Some 5%Z;
                     prop_geom_type := Some "Cylinder" |}) (backend None).
Proof.
  assert (Hrim : capitalize (geom_type rim0) = "Vertex" <-> shape_class rim0 = CVertex).
  { split; intros Heq; discriminate Heq. }
  assert (Hband : capitalize (geom_type band) = "Vertex" <-> shape_class band = CVertex).
  { split; intros Heq; discriminate Heq. }
  split; [exact Hrim|]. split.
  - exact (handle_properties_fields (backend None) "rim" rim0 eq_refl Hrim).
  - split; [exact Hband|].
    exact (handle_properties_fields (backend None) "band" band eq_refl Hband).
Defined.

End ToyFacts.

(** * Further properties of the backend *)

Section Extras.
Context {K : Kernel} {H : Host (gmap string Shape) Dict}.
Local Open Scope res_scope.

Notation "x <- c ;; k" := (bind c (fun x => k))
  (at level 100, c at next level, right associativity).
Notation "c ;;; k" := (bind c (fun _ => k))
  (at level 100, k at level 200, right associativity).

(** ** The entry point, case by case *)

Lemma invoke_payload (i : Invocation) (self : ViewerBackend) :
  invoke i self = finish (payload i self) self.
Proof.
  destruct i; cbn [invoke payload].
  - apply handle_distance_run.
  - apply handle_properties_run.
  - apply handle_angle_run.
Qed.

Lemma selected_handler_no_tool (ids : list string) :
  selected_handler None ids = None.
Proof. destruct ids as [|i1 [|i2 rest]]; reflexivity. Qed.

Lemma handle_event_body_cases (event : Event) (self : ViewerBackend) :
  handle_event_body event self =
  match event with
  | DataEvent raw =>
      match pickle_loads_b64decode raw with
      | Ok m => (Ok tt, with_model m self, [])
      | Raise ex => (Raise ex, self, [])
      end
  | UpdatesEvent _ =>
      match reached event self with
      | Some i => invoke i (after_tool_update event self)
      | None => (Ok tt, after_tool_update event self, [])
      end
  | OtherEvent => (Ok tt, self, [])
  end.
Proof.
  destruct event as [raw|[a sel]|]; [| |reflexivity].
  - unfold handle_event_body, load_model. rewrite bind_lift.
    destruct (pickle_loads_b64decode raw); reflexivity.
  - assert (Hrest : forall s,
      (self0 <- get_self ;;
       match activated_tool self0 with
       | Some _ => handle_activated_tool {| activeTool := a; selectedShapeIDs := sel |}
       | None => ret tt
       end) s
      = match sel with
        | Some ids =>
            match selected_handler (activated_tool s) ids with
            | Some i => invoke i s
            | None => (Ok tt, s, [])
            end
        | None => (Ok tt, s, [])
        end).
    { intros s. rewrite bind_get_self.
      destruct (activated_tool s) as [t|] eqn:Ht.
      - destruct sel as [ids|]; [|reflexivity].
        rewrite handle_activated_tool_run, Ht. reflexivity.
      - destruct sel as [ids|]; [|reflexivity].
        rewrite selected_handler_no_tool. reflexivity. }
    unfold handle_event_body, reached, after_tool_update, tool_of_literal.
    cbn [activeTool selectedShapeIDs].
    destruct a as [t|].
    + destruct (String.eqb t "None"); cbn [negb];
        rewrite bind_set_activated_tool, Hrest; destruct sel; reflexivity.
    + rewrite bind_ret, Hrest. destruct sel; reflexivity.
Qed.

Lemma after_tool_update_port (event : Event) (self : ViewerBackend) :
  port (after_tool_update event self) = port self.
Proof. destruct event as [raw|[[t|] sel]|]; reflexivity. Qed.

Lemma handle_event_cases (event : Event) (self : ViewerBackend) :
  handle_event event self =
  match event with
  | DataEvent raw =>
      match pickle_loads_b64decode raw with
      | Ok m => (Ok tt, with_model m self, [])
      | Raise ex =>
          (Ok tt, self,
           [Stdout "The following error happened, backend still running";
            Traceback ex])
      end
  | UpdatesEvent _ =>
      let self' := after_tool_update event self in
      match reached event self with
      | Some i =>
          match payload i self' with
          | Ok d =>
              match transport d (port self) with
              | None => (Ok tt, self', [SendResponse d (port self); StdoutDataSent d])
              | Some ex =>
                  (Ok tt, self',
                   [SendResponse d (port self);
                    Stdout "The following error happened, backend still running";
                    Traceback ex])
              end
          | Raise ex =>
              (Ok tt, self',
               [Stdout "The following error happened, backend still running";
                Traceback ex])
          end
      | None => (Ok tt, self', [])
      end
  | OtherEvent => (Ok tt, self, [])
  end.
Proof.
  unfold handle_event, error_handler. rewrite handle_event_body_cases.
  destruct event as [raw|changes|]; [| |reflexivity].
  - destruct (pickle_loads_b64decode raw); reflexivity.
  - cbv zeta.
    destruct (reached (UpdatesEvent changes) self) as [i|]; [|reflexivity].
    rewrite invoke_payload. unfold finish, respond.
    rewrite after_tool_update_port.
    destruct (payload i (after_tool_update (UpdatesEvent changes) self)) as [d|ex];
      [|reflexivity].
    destruct (transport d (port self)); reflexivity.
Qed.

(** ** set_precision *)

Lemma round_float_field_twice (n : Z) (v : option Float) :
  (forall x : Float, py_round (py_round x n) n = py_round x n) ->
  round_float_field n (round_float_field n v) = round_float_field n v.
Proof. intros Hidem. destruct v as [x|]; cbn; [rewrite Hidem|]; reflexivity. Qed.

Lemma round_tuple_field_twice (n : Z) (v : option (list Float)) :
  (forall x : Float, py_round (py_round x n) n = py_round x n) ->
  round_tuple_field n (round_tuple_field n v) = round_tuple_field n v.
Proof.
  intros Hidem. destruct v as [t|]; cbn; [|reflexivity].
  f_equal. rewrite map_map. apply map_ext. intros x. apply Hidem.
Qed.

(** X1.  When rounding an already rounded float changes nothing,
    set_precision is idempotent on each of the three response dataclasses:
    a second pass over a payload leaves it as the first pass made it. *)
Theorem set_precision_idempotent (n : Z) (d : Dict) :
  (forall x : Float, py_round (py_round x n) n = py_round x n) ->
  set_precision n (set_precision n d) = set_precision n d.
Proof.
  intros Hidem.
  destruct d as [r|r|r]; cbn [set_precision]; f_equal;
    unfold set_precision_distance, set_precision_properties, set_precision_angle;
    cbn [dist_point1 dist_point2 dist_distance
         prop_center prop_vertex_coords prop_length prop_width prop_area
         prop_volume prop_radius prop_geom_type
         ang_angle ang_point1 ang_point2];
    rewrite ?round_float_field_twice, ?round_tuple_field_twice by exact Hidem;
    reflexivity.
Qed.

(** ** What an event sends *)

Lemma Forall_rounded (t : list Float) :
  Forall (fun x => exists y, x = round2 y) (rounded t).
Proof.
  unfold rounded. induction t as [|x t IH]; cbn [map]; constructor.
  - exists x. reflexivity.
  - exact IH.
Qed.

Lemma Forall_round2 (x : Float) :
  Forall (fun x => exists y, x = round2 y) [round2 x].
Proof. constructor; [exists x; reflexivity|constructor]. Qed.

Ltac split_rounded :=
  cbn [floats_of floats_of_tuple float_of_field set_geom_type
       dist_point1 dist_point2 dist_distance
       prop_center prop_vertex_coords prop_length prop_width prop_area
       prop_volume prop_radius ang_angle ang_point1 ang_point2];
  repeat match goal with
         | |- context [option_map _ ?o] => destruct o; cbn [option_map float_of_field]
         end;
  repeat (apply Forall_app; split);
  try apply Forall_rounded; try apply Forall_round2; try constructor.

Ltac res_step Hd :=
  match type of Hd with
  | context [if ?b then _ else _] => destruct b; cbn [res_bind] in Hd
  | context [res_bind ?c _] =>
      lazymatch c with
      | context [res_bind _ _] => fail
      | _ =>
          let x := fresh "x" in
          destruct c as [x|] eqn:?; cbn [res_bind] in Hd; [|discriminate Hd]
      end
  end.

Lemma distance_spec_rounded (shape1 shape2 : Shape) (r : DistanceResponse) :
  distance_spec shape1 shape2 = Ok r ->
  Forall (fun x => exists y, x = round2 y) (floats_of (DistanceDict r)).
Proof.
  unfold distance_spec. intros Hd. repeat res_step Hd.
  inversion Hd; subst r. split_rounded.
Qed.

Lemma angle_spec_rounded (shape1 shape2 : Shape) (r : AngleResponse) :
  angle_spec shape1 shape2 = Ok r ->
  Forall (fun x => exists y, x = round2 y) (floats_of (AngleDict r)).
Proof.
  unfold angle_spec. intros Hd. repeat res_step Hd.
  inversion Hd; subst r. split_rounded.
Qed.

Lemma properties_spec_rounded (shape : Shape) (label : option string)
      (r : PropertiesResponse) :
  properties_spec shape = Ok r ->
  Forall (fun x => exists y, x = round2 y)
         (floats_of (PropertiesDict (set_geom_type label r))).
Proof.
  unfold properties_spec. intros Hd.
  destruct (shape_class shape); repeat res_step Hd;
    repeat match goal with
           | Heq : Ok _ = Ok _ |- _ => inversion Heq; subst; clear Heq
           end;
    split_rounded.
Qed.

Lemma payload_rounded (i : Invocation) (self : ViewerBackend) (d : Dict) :
  payload i self = Ok d ->
  Forall (fun x => exists y, x = round2 y) (floats_of d).
Proof.
  destruct i as [id1 id2|shape_id|id1 id2]; cbn [payload]; intros Hd.
  - destruct (lookup_shape self id1) as [s1|]; [|discriminate Hd].
    destruct (lookup_shape self id2) as [s2|]; [|discriminate Hd].
    cbn [res_bind] in Hd.
    destruct (distance_spec s1 s2) as [r|] eqn:Hr; [|discriminate Hd].
    inversion Hd; subst d. exact (distance_spec_rounded s1 s2 r Hr).
  - destruct (lookup_shape self shape_id) as [s1|]; [|discriminate Hd].
    cbn [res_bind] in Hd.
    destruct (properties_spec s1) as [r|] eqn:Hr; [|discriminate Hd].
    inversion Hd; subst d. exact (properties_spec_rounded s1 _ r Hr).
  - destruct (lookup_shape self id1) as [s1|]; [|discriminate Hd].
    destruct (lookup_shape self id2) as [s2|]; [|discriminate Hd].
    cbn [res_bind] in Hd.
    destruct (angle_spec s1 s2) as [r|] eqn:Hr; [|discriminate Hd].
    inversion Hd; subst d. exact (angle_spec_rounded s1 s2 r Hr).
Qed.

(** X2.  Every float handed to the transport is a rounded one: in each
    payload an event sends, every float field and every element of a tuple
    field is the result of rounding to 2 decimals. *)
Theorem sent_floats_rounded (event : Event) (self : ViewerBackend) :
  Forall (fun dp => Forall (fun x => exists y, x = round2 y) (floats_of (fst dp)))
         (sends (effects (handle_event event self))).
Proof.
  rewrite handle_event_cases.
  destruct event as [raw|changes|]; [| |constructor].
  - destruct (pickle_loads_b64decode raw); constructor.
  - cbv zeta.
    destruct (reached (UpdatesEvent changes) self) as [i|]; [|constructor].
    destruct (payload i (after_tool_update (UpdatesEvent changes) self))
      as [d|ex] eqn:Hd; [|constructor].
    apply payload_rounded in Hd.
    destruct (transport d (port self)); (constructor; [exact Hd|constructor]).
Qed.

(** X3.  An event calls [send_response] at most once, and always with the
    backend's own port: the calls are exactly the payload of the handler
    the event reaches, when that handler computes one. *)
Theorem event_sends (event : Event) (self : ViewerBackend) :
  sends (effects (handle_event event self)) =
  match reached event self with
  | Some i =>
      match payload i (after_tool_update event self) with
      | Ok d => [(d, port self)]
      | Raise _ => []
      end
  | None => []
  end
  /\ (length (sends (effects (handle_event event self))) <= 1)%nat.
Proof.
  rewrite handle_event_cases.
  destruct event as [raw|changes|].
  - destruct (pickle_loads_b64decode raw); split; cbn; (reflexivity || lia).
  - cbv zeta.
    destruct (reached (UpdatesEvent changes) self) as [i|]; [|split; cbn; (reflexivity || lia)].
    destruct (payload i (after_tool_update (UpdatesEvent changes) self)) as [d|ex];
      [|split; cbn; (reflexivity || lia)].
    destruct (transport d (port self)); split; cbn; (reflexivity || lia).
  - split; cbn; (reflexivity || lia).
Qed.

(** X4.  The "Data sent" line is printed exactly for a payload whose send
    did not raise, and a run that makes a send is that send followed by
    the "Data sent" line when the transport accepted it, and by the
    diagnostic and the traceback of the transport's exception when it
    raised. *)
Theorem data_sent_printed_iff_delivered (event : Event) (self : ViewerBackend) :
  printed (effects (handle_event event self)) =
  flat_map (fun dp => match transport (fst dp) (snd dp) with
                      | None => [fst dp]
                      | Some _ => []
                      end)
           (sends (effects (handle_event event self)))
  /\ (forall d p, In (d, p) (sends (effects (handle_event event self))) ->
      effects (handle_event event self) =
      match transport d p with
      | None => [SendResponse d p; StdoutDataSent d]
      | Some ex =>
          [SendResponse d p;
           Stdout "The following error happened, backend still running";
           Traceback ex]
      end).
Proof.
  rewrite handle_event_cases.
  destruct event as [raw|changes|].
  - destruct (pickle_loads_b64decode raw); (split; [reflexivity|intros d p []]).
  - cbv zeta.
    destruct (reached (UpdatesEvent changes) self) as [i|];
      [|split; [reflexivity|intros d p []]].
    destruct (payload i (after_tool_update (UpdatesEvent changes) self)) as [d0|ex];
      [|split; [reflexivity|intros d p []]].
    destruct (transport d0 (port self)) eqn:Ht;
      cbn [effects snd sends printed flat_map fst app In]; rewrite Ht;
      (split; [reflexivity|]);
      intros d p [Heq|[]]; inversion Heq; subst d p; rewrite Ht; reflexivity.
  - split; [reflexivity|intros d p []].
Qed.

(** ** Selections the model cannot answer *)

Lemma lookup_shape_missing (self : ViewerBackend) (m : gmap string Shape)
      (shape_id : string) :
  model self = Some m -> m !! shape_id = None ->
  lookup_shape self shape_id = Raise (KeyError shape_id).
Proof. intros Hm Hid. unfold lookup_shape. rewrite Hm, Hid. reflexivity. Qed.

(** X5.  A handler given an identifier the model does not have raises the
    [KeyError] of that identifier before any kernel call: nothing is sent
    and the backend is untouched.  The two-shape handlers look both shapes
    up first, the first identifier first. *)
Theorem handlers_missing_shape (self : ViewerBackend) (m : gmap string Shape)
        (id1 id2 : string) :
  model self = Some m ->
  (m !! id1 = None ->
   handle_properties id1 self = (Raise (KeyError id1), self, [])
   /\ handle_distance id1 id2 self = (Raise (KeyError id1), self, [])
   /\ handle_angle id1 id2 self = (Raise (KeyError id1), self, []))
  /\ (is_Some (m !! id1) -> m !! id2 = None ->
      handle_distance id1 id2 self = (Raise (KeyError id2), self, [])
      /\ handle_angle id1 id2 self = (Raise (KeyError id2), self, [])).
Proof.
  intros Hm. split.
  - intros Hid.
    rewrite handle_properties_run, handle_distance_run, handle_angle_run.
    rewrite (lookup_shape_missing self m id1 Hm Hid). repeat split.
  - intros [s1 Hs1] Hid.
    rewrite handle_distance_run, handle_angle_run.
    rewrite (lookup_shape_missing self m id2 Hm Hid).
    unfold lookup_shape. rewrite Hm, Hs1. repeat split.
Qed.

Lemma after_tool_update_model (event : Event) (self : ViewerBackend) :
  model (after_tool_update event self) = model self.
Proof. destruct event as [raw|[[t|] sel]|]; reflexivity. Qed.

Lemma payload_without_model (i : Invocation) (self : ViewerBackend) :
  model self = None ->
  payload i self = Raise (TypeError "'NoneType' object is not subscriptable").
Proof.
  intros Hm. destruct i; cbn [payload]; unfold lookup_shape; rewrite Hm;
    reflexivity.
Qed.

(** X6.  While no model has been loaded, an updates event that reaches a
    handler only prints the diagnostic of the [TypeError] raised by
    subscripting [None]; no updates event sends anything. *)
Theorem selection_without_model (self : ViewerBackend) (changes : Changes) :
  model self = None ->
  effects (handle_event (UpdatesEvent changes) self) =
  match reached (UpdatesEvent changes) self with
  | Some _ =>
      [Stdout "The following error happened, backend still running";
       Traceback (TypeError "'NoneType' object is not subscriptable")]
  | None => []
  end.
Proof.
  intros Hm. rewrite handle_event_cases. cbv zeta.
  destruct (reached (UpdatesEvent changes) self) as [i|]; [|reflexivity].
  rewrite payload_without_model; [reflexivity|].
  rewrite after_tool_update_model. exact Hm.
Qed.

(** ** Runs of events *)

Lemma handle_event_ok (event : Event) (self : ViewerBackend) :
  outcome (handle_event event self) = Ok tt.
Proof.
  rewrite handle_event_run.
  destruct (outcome (handle_event_body event self)); reflexivity.
Qed.

Lemma handle_event_final (event : Event) (self : ViewerBackend) :
  final (handle_event event self) =
  match event with
  | DataEvent raw =>
      match pickle_loads_b64decode raw with
      | Ok m => with_model m self
      | Raise _ => self
      end
  | UpdatesEvent _ | OtherEvent => after_tool_update event self
  end.
Proof.
  rewrite handle_event_run, <- handle_event_body_final.
  destruct (outcome (handle_event_body event self)); reflexivity.
Qed.

Lemma handle_events_cons (event : Event) (rest : list Event)
      (self : ViewerBackend) :
  handle_events (event :: rest) self =
  (outcome (handle_events rest (final (handle_event event self))),
   final (handle_events rest (final (handle_event event self))),
   (effects (handle_event event self)
    ++ effects (handle_events rest (final (handle_event event self))))%list).
Proof.
  cbn [handle_events]. unfold bind.
  pose proof (handle_event_ok event self) as Hok.
  unfold outcome, final, effects in *.
  destruct (handle_event event self) as [[r self'] out]. cbn [fst snd] in *.
  subst r.
  destruct (handle_events rest self') as [[r2 self''] out2]. reflexivity.
Qed.

(** X7.  After any run of events the entry point has never raised, the
    port and the selection filter are the initial ones, the active tool is
    the one named by the last [activeTool] key of the run (whatever was
    selected, loaded or failed in between), and the model is the last
    payload that decoded. *)
Theorem events_final_state (events : list Event) (self : ViewerBackend) :
  outcome (handle_events events self) = Ok tt
  /\ port (final (handle_events events self)) = port self
  /\ filter_type (final (handle_events events self)) = filter_type self
  /\ activated_tool (final (handle_events events self))
     = tool_after events (activated_tool self)
  /\ model (final (handle_events events self))
     = model_after events (model self).
Proof.
  revert self. induction events as [|event rest IH]; intros self.
  - repeat split.
  - rewrite handle_events_cons. cbn [outcome final fst snd].
    destruct (IH (final (handle_event event self))) as (Hok & Hp & Hf & Ht & Hm).
    unfold outcome, final in *. rewrite Hok, Hp, Hf, Ht, Hm.
    fold (final (handle_event event self)). rewrite handle_event_final.
    unfold tool_after, model_after. cbn [fold_left].
    destruct event as [raw|[[t|] sel]|]; cbn [after_tool_update activeTool];
      try (destruct (pickle_loads_b64decode raw)); repeat split.
Qed.

Lemma sends_app (out out' : list Effect) :
  sends (out ++ out') = (sends out ++ sends out')%list.
Proof.
  induction out as [|e out IH]; [reflexivity|].
  destruct e; cbn [sends app]; rewrite IH; reflexivity.
Qed.

(** X8.  No response is sent before a tool is activated: from a backend
    with no active tool, a run of events none of which carries an
    [activeTool] key never calls [send_response], whatever is loaded or
    selected. *)
Theorem no_tool_no_send (events : list Event) (self : ViewerBackend) :
  activated_tool self = None ->
  forallb (fun event => negb (names_tool event)) events = true ->
  sends (effects (handle_events events self)) = [].
Proof.
  revert self. induction events as [|event rest IH]; intros self Htool Hkeys.
  - reflexivity.
  - cbn [forallb] in Hkeys. apply andb_prop in Hkeys as [Hkey Hrest].
    rewrite handle_events_cons. cbn [effects snd]. rewrite sends_app.
    fold (effects (handle_event event self)).
    fold (effects (handle_events rest (final (handle_event event self)))).
    rewrite IH; [|rewrite handle_event_final|exact Hrest].
    + rewrite handle_event_cases. rewrite app_nil_r.
      destruct event as [raw|[[t|] sel]|]; try discriminate Hkey.
      * destruct (pickle_loads_b64decode raw); reflexivity.
      * cbv zeta. unfold reached. cbn [selectedShapeIDs after_tool_update activeTool].
        rewrite Htool.
        destruct sel as [ids|]; [rewrite selected_handler_no_tool|]; reflexivity.
      * reflexivity.
    + destruct event as [raw|[[t|] sel]|]; try discriminate Hkey;
        try (destruct (pickle_loads_b64decode raw)); exact Htool.
Qed.

(** ** Centers and references *)

(** X9.  The mode only matters for circular edges and cylinder faces: for
    every other shape the two modes give the same center, and for an edge
    of kind circle or ellipse they agree exactly when the kernel's arc
    center and curve center agree. *)
Theorem get_center_mode (shape : Shape) :
  (mode_sensitive shape = false ->
   get_center shape true = get_center shape false)
  /\ (shape_class shape = CEdge -> is_circular shape = true ->
      (get_center shape true = get_center shape false
       <-> arc_center shape = shape_center shape)).
Proof.
  rewrite !get_center_by_class. unfold mode_sensitive. split.
  - destruct (shape_class shape); intros Hm; try reflexivity;
      rewrite Hm; reflexivity.
  - intros Hc Hk. rewrite Hc, Hk. reflexivity.
Qed.

Lemma py_in_circle_ellipse_str (k : string) :
  py_in (PyStr k) [PyStr "CIRCLE"; PyStr "ELLIPSE"]
  = String.eqb k "CIRCLE" || String.eqb k "ELLIPSE".
Proof.
  unfold py_in; cbn [existsb py_eq].
  destruct (String.eqb k "CIRCLE"), (String.eqb k "ELLIPSE"); reflexivity.
Qed.

(** X10.  The reference the Angle handler derives from a shape is a plane
    exactly for a Face and for an Edge of kind circle or ellipse, and a
    vector for every other shape the kernel can take a tangent of. *)
Theorem reference_kind (shape : Shape) (r : Reference) :
  reference shape = Ok r ->
  type_of r = if gives_plane shape then TPlane else TVector.
Proof.
  unfold reference, isinstance, gives_plane, is_circular.
  rewrite py_in_circle_ellipse_str.
  destruct (shape_class shape); cbn [ShapeClass_eqb andb];
    try destruct (String.eqb (geom_type shape) "CIRCLE"
                  || String.eqb (geom_type shape) "ELLIPSE");
    intros Hr; repeat res_step Hr; inversion Hr; reflexivity.
Qed.

(** X13.  The plane/vector dispatch of the Angle handler is exhaustive and
    well typed: whenever the angle computation raises, the exception is one
    the kernel's [get_angle] raised, never an attribute or argument error
    of the dispatch itself. *)
Theorem angle_between_raises_from_kernel (first second : Reference)
        (ex : Exception) :
  angle_between first second = Raise ex ->
  exists v w, get_angle v w = Raise ex.
Proof.
  rewrite angle_between_rule. unfold angle_rule.
  destruct first as [p|v], second as [q|w]; intros Hr.
  - exists (z_dir p), (z_dir q).
    destruct (get_angle (z_dir p) (z_dir q)); [discriminate Hr|exact Hr].
  - exists (z_dir p), w.
    destruct (get_angle (z_dir p) w); [discriminate Hr|exact Hr].
  - exists (z_dir q), v.
    destruct (get_angle (z_dir q) v); [discriminate Hr|exact Hr].
  - exists v, w. destruct (get_angle v w); [discriminate Hr|exact Hr].
Qed.

(** ** Responses *)

(** X11.  Whatever the kernel labels a shape, a Properties response never
    carries the label "Vertex": its [geom_type] is the capitalized label of
    the selected shape, or absent when that label reads "Vertex". *)
Theorem properties_label_never_vertex (self : ViewerBackend) (shape_id : string)
        (r : PropertiesResponse) :
  sent (effects (handle_properties shape_id self)) = Some (PropertiesDict r) ->
  prop_geom_type r <> Some "Vertex"
  /\ exists shape, lookup_shape self shape_id = Ok shape
                   /\ prop_geom_type r = stored_label shape.
Proof.
  rewrite handle_properties_run, sent_finish.
  destruct (lookup_shape self shape_id) as [shape|]; [|discriminate].
  cbn [res_bind].
  destruct (properties_spec shape) as [r0|]; [|discriminate].
  cbn [res_bind]. intros Hr. inversion Hr; subst r. clear Hr.
  cbn [set_geom_type prop_geom_type]. split.
  - unfold stored_label.
    destruct (String.eqb_spec (capitalize (geom_type shape)) "Vertex") as [Heq|Hne];
      [discriminate|]. intros Hl. inversion Hl. contradiction.
  - exists shape. split; reflexivity.
Qed.

Lemma distance_response_of_handle_distance (id1 id2 : string)
      (self : ViewerBackend) :
  distance_response_of_run (effects (handle_distance id1 id2 self)) =
  match lookup_shape self id1, lookup_shape self id2 with
  | Ok shape1, Ok shape2 =>
      match distance_spec shape1 shape2 with
      | Ok r => Some r
      | Raise _ => None
      end
  | _, _ => None
  end.
Proof.
  unfold distance_response_of_run. rewrite handle_distance_run, sent_finish.
  destruct (lookup_shape self id1) as [s1|]; [|reflexivity].
  destruct (lookup_shape self id2) as [s2|]; [|reflexivity].
  cbn [res_bind]. destruct (distance_spec s1 s2); reflexivity.
Qed.

(** X12.  The order of the two identifiers decides which point is which:
    the Distance handler responds for one order exactly when it responds
    for the other, and swapping the identifiers exchanges point1 and
    point2 of the response. *)
Theorem distance_points_swap (self : ViewerBackend) (id1 id2 : string) :
  match distance_response_of_run (effects (handle_distance id1 id2 self)),
        distance_response_of_run (effects (handle_distance id2 id1 self)) with
  | Some r, Some r' =>
      dist_point1 r = dist_point2 r' /\ dist_point2 r = dist_point1 r'
  | None, None => True
  | _, _ => False
  end.
Proof.
  rewrite !distance_response_of_handle_distance.
  destruct (lookup_shape self id1) as [s1|], (lookup_shape self id2) as [s2|];
    try exact I.
  unfold distance_spec.
  destruct (get_center s1 true) as [p1|], (get_center s2 true) as [p2|];
    cbn [res_bind dist_point1 dist_point2]; try exact I.
  split; reflexivity.
Qed.

(** X14.  The Properties handler fails on a cylinder Face without a
    circular boundary edge: reading the radius takes the first element of
    the empty list, the [IndexError] is raised before anything is sent and
    the backend is untouched. *)
Theorem properties_cylinder_without_circle (self : ViewerBackend)
        (shape_id : string) (shape : Shape) :
  lookup_shape self shape_id = Ok shape ->
  shape_class shape = CFace -> is_cylinder shape = true ->
  circular_boundary_edges shape = [] ->
  handle_properties shape_id self
  = (Raise (IndexError "list index out of range"), self, []).
Proof.
  intros Hs Hc Hk He.
  rewrite handle_properties_run, Hs. cbn [res_bind].
  unfold properties_spec. rewrite Hc, Hk, He. reflexivity.
Qed.

End Extras.

(** * The further properties on the integer kernel *)

Module ToyExtras.
Import Toy.

Lemma set_precision_idempotent_witness :
  (forall x : Z, py_round (py_round x 2) 2 = py_round x 2)
  /\ set_precision 2
       (set_precision 2
          (DistanceDict {| dist_point1 := Some [0; 0; 0]%Z;
                           dist_point2 := Some [3; 4; 0]%Z;
                           dist_distance := Some 5%Z |}))
     = set_precision 2
         (DistanceDict {| dist_point1 := Some [0; 0; 0]%Z;
                          dist_point2 := Some [3; 4; 0]%Z;
                          dist_distance := Some 5%Z |}).
Proof.
  split; [intros x; reflexivity|].
  exact (set_precision_idempotent 2
           (DistanceDict {| dist_point1 := Some [0; 0; 0]%Z;
                            dist_point2 := Some [3; 4; 0]%Z;
                            dist_distance := Some 5%Z |})
           (fun x => eq_refl)).
Defined.

Lemma handlers_missing_shape_witness :
  scene !! "ghost" = None /\ is_Some (scene !! "v0")
  /\ handle_properties "ghost" (backend None)
     = (Raise (KeyError "ghost"), backend None, [])
  /\ handle_distance "ghost" "v0" (backend None)
     = (Raise (KeyError "ghost"), backend None, [])
  /\ handle_angle "v0" "ghost" (backend None)
     = (Raise (KeyError "ghost"), backend None, []).
Proof.
  assert (Hv0 : is_Some (scene !! "v0")) by (eexists; reflexivity).
  split; [reflexivity|]. split; [exact Hv0|].
  split_and!.
  - exact (proj1 (proj1 (handlers_missing_shape (backend None) scene
                           "ghost" "v0" eq_refl) eq_refl)).
  - exact (proj1 (proj2 (proj1 (handlers_missing_shape (backend None) scene
                                  "ghost" "v0" eq_refl) eq_refl))).
  - exact (proj2 (proj2 (handlers_missing_shape (backend None) scene
                           "v0" "ghost" eq_refl) Hv0 eq_refl)).
Defined.

Lemma selection_without_model_witness :
  model (ViewerBackend_init 3939) = None
  /\ effects (handle_event
                (UpdatesEvent {| activeTool := Some Tool.Distance;
                                 selectedShapeIDs := Some ["v0"; "v1"] |})
                (ViewerBackend_init 3939))
     = [Stdout "The following error happened, backend still running";
        Traceback (TypeError "'NoneType' object is not subscriptable")].
Proof.
  split; [reflexivity|].
  exact (selection_without_model (ViewerBackend_init 3939)
           {| activeTool := Some Tool.Distance;
              selectedShapeIDs := Some ["v0"; "v1"] |} eq_refl).
Defined.

Lemma no_tool_no_send_witness :
  activated_tool (ViewerBackend_init 3939) = None
  /\ sends (effects (handle_events
                       [DataEvent "scene"; selection_changed ["v0"; "v1"];
                        DataEvent "garbage"; selection_changed ["rim"]]
                       (ViewerBackend_init 3939))) = [].
Proof.
  split; [reflexivity|].
  exact (no_tool_no_send
           [DataEvent "scene"; selection_changed ["v0"; "v1"];
            DataEvent "garbage"; selection_changed ["rim"]]
           (ViewerBackend_init 3939) eq_refl eq_refl).
Defined.

Lemma get_center_mode_witness :
  mode_sensitive (box (5, 5, 5)%Z 10) = false
  /\ get_center (box (5, 5, 5)%Z 10) true = get_center (box (5, 5, 5)%Z 10) false
  /\ shape_class rim0 = CEdge /\ is_circular rim0 = true
  /\ (get_center rim0 true = get_center rim0 false
      <-> arc_center rim0 = shape_center rim0).
Proof.
  split; [reflexivity|]. split.
  - exact (proj1 (get_center_mode (box (5, 5, 5)%Z 10)) eq_refl).
  - split; [reflexivity|]. split; [reflexivity|].
    exact (proj2 (get_center_mode rim0) eq_refl eq_refl).
Defined.

Lemma reference_kind_witness :
  reference rim0 = Ok (RefPlane ((5, 0, 0)%Z, (0, 0, 1)%Z))
  /\ type_of (RefPlane ((5, 0, 0)%Z, (0, 0, 1)%Z))
     = (if gives_plane rim0 then TPlane else TVector)
  /\ reference seam = Ok (RefVector (0, 0, 1)%Z)
  /\ type_of (RefVector (0, 0, 1)%Z)
     = (if gives_plane seam then TPlane else TVector).
Proof.
  split; [reflexivity|]. split.
  - exact (reference_kind rim0 (RefPlane ((5, 0, 0)%Z, (0, 0, 1)%Z)) eq_refl).
  - split; [reflexivity|].
    exact (reference_kind seam (RefVector (0, 0, 1)%Z) eq_refl).
Defined.

Lemma angle_between_raises_from_kernel_witness :
  angle_between (RefVector (1, 1, 0)%Z) (RefVector (1, 0, 0)%Z)
  = Raise (ValueError "angle is not a multiple of 90 degrees")
  /\ exists v w : vec,
       angle v w = Raise (ValueError "angle is not a multiple of 90 degrees").
Proof.
  split; [reflexivity|].
  exact (angle_between_raises_from_kernel
           (RefVector (1, 1, 0)%Z) (RefVector (1, 0, 0)%Z)
           (ValueError "angle is not a multiple of 90 degrees") eq_refl).
Defined.

Lemma properties_label_never_vertex_witness :
  sent (effects (handle_properties "v0" (backend None)))
  = Some (PropertiesDict
            {| prop_center := Some [0; 0; 0]%Z;
               prop_vertex_coords := Some [0; 0; 0]%Z;
               prop_length := None; prop_width := None; prop_area := None;
               prop_volume := None; prop_radius := None;
               prop_geom_type := None |})
  /\ (None : option string) <> Some "Vertex".
Proof.
  split; [reflexivity|].
  exact (proj1 (properties_label_never_vertex (backend None) "v0"
                  {| prop_center := Some [0; 0; 0]%Z;
                     prop_vertex_coords := Some [0; 0; 0]%Z;
                     prop_length := None; prop_width := None; prop_area := None;
                     prop_volume := None; prop_radius := None;
                     prop_geom_type := None |} eq_refl)).
Defined.

Lemma properties_cylinder_without_circle_witness :
  lookup_shape (backend None) "cut" = Ok cut
  /\ shape_class cut = CFace /\ is_cylinder cut = true
  /\ circular_boundary_edges cut = []
  /\ handle_properties "cut" (backend None)
     = (Raise (IndexError "list index out of range"), backend None, []).
Proof.
  do 4 (split; [reflexivity|]).
  exact (properties_cylinder_without_circle (backend None) "cut" cut
           eq_refl eq_refl eq_refl eq_refl).
Defined.

Lemma data_sent_printed_iff_delivered_witness :
  In (DistanceDict {| dist_point1 := Some [0; 0; 0]%Z;
                      dist_point2 := Some [3; 4; 0]%Z;
                      dist_distance := Some 5%Z |}, 3939%Z)
     (sends (effects (@handle_event kernel offline
                        (selection_changed ["v0"; "v1"])
                        (backend (Some Tool.Distance)))))
  /\ effects (@handle_event kernel offline (selection_changed ["v0"; "v1"])
                            (backend (Some Tool.Distance)))
     = [SendResponse (DistanceDict {| dist_point1 := Some [0; 0; 0]%Z;
                                      dist_point2 := Some [3; 4; 0]%Z;
                                      dist_distance := Some 5%Z |}) 3939;
        Stdout "The following error happened, backend still running";
        Traceback (OtherError "connection refused")]
  /\ effects (handle_event (selection_changed ["v0"; "v1"])
                           (backend (Some Tool.Distance)))
     = [SendResponse (DistanceDict {| dist_point1 := Some [0; 0; 0]%Z;
                                      dist_point2 := Some [3; 4; 0]%Z;
                                      dist_distance := Some 5%Z |}) 3939;
        StdoutDataSent (DistanceDict {| dist_point1 := Some [0; 0; 0]%Z;
                                        dist_point2 := Some [3; 4; 0]%Z;
                                        dist_distance := Some 5%Z |})].
Proof.
  split; [exact (or_introl eq_refl)|]. split.
  - exact (proj2 (@data_sent_printed_iff_delivered kernel offline
                    (selection_changed ["v0"; "v1"])
                    (backend (Some Tool.Distance))) _ _ (or_introl eq_refl)).
  - exact (proj2 (@data_sent_printed_iff_delivered kernel host
                    (selection_changed ["v0"; "v1"])
                    (backend (Some Tool.Distance))) _ _ (or_introl eq_refl)).
Defined.

(** A send that fails: the call is made, the diagnostic is printed and
    nothing is printed as sent. *)
Example offline_send :
  @handle_event kernel offline (selection_changed ["v0"; "v1"])
                (backend (Some Tool.Distance))
  = (Ok tt, backend (Some Tool.Distance),
     [SendResponse (DistanceDict {| dist_point1 := Some [0; 0; 0]%Z;
                                    dist_point2 := Some [3; 4; 0]%Z;
                                    dist_distance := Some 5%Z |}) 3939;
      Stdout "The following error happened, backend still running";
      Traceback (OtherError "connection refused")]).
Proof. reflexivity. Qed.

(** The tool and the model survive failures in between. *)
Example run_of_events :
  final (handle_events
           [UpdatesEvent {| activeTool := Some Tool.Angle; selectedShapeIDs := None |};
            DataEvent "scene";
            selection_changed ["v0"; "floor"];
            DataEvent "garbage";
            selection_changed ["ghost"]]
           (ViewerBackend_init 3939))
  = backend (Some Tool.Angle).
Proof. reflexivity. Qed.

End ToyExtras.
